(** * DataWarehouse: the Redshift cluster utility and the SQL catalog

    A shallow embedding of [redshift_util.py] and [sql_queries.py].

    The command-line tool talks to two boto3 clients (IAM and Redshift),
    prints progress lines and sleeps between polls.  None of that is
    computed by the program itself, so the embedding threads three things
    through every function:

    - a [World]: what each client method answers (a value or a raised
      exception); the answers of [describe_clusters] are scripted by the
      number of the call, so that a polling loop sees a sequence of statuses;
    - a counter of the [describe_clusters] calls made so far;
    - the chronological list of observable events (API calls, printed
      lines, sleeps) the run has produced.

    Python exceptions are values of [exn]; a computation either returns or
    raises, and [try_except] is the [try: ... except ...:] statement. *)

From Stdlib Require Import String Ascii List ZArith Bool Arith Lia.
Import ListNotations.
Open Scope string_scope.

(** ** Python values the program handles *)

(** The exception classes that occur.  All of them derive from
    [Exception]; [ClusterNotFoundFault] is the one class the code names in
    an [except] clause; [Exit] is what click's [ctx.exit()] raises. *)
Inductive exn_class : Type :=
| UsageError
| TypeError
| ValueError
| IndexError
| KeyError
| ClusterNotFoundFault
| ClientError
| Exit.

Record exn : Type := Exn { exn_cls : exn_class; exn_msg : string }.

Definition exn_class_eqb (a b : exn_class) : bool :=
  match a, b with
  | UsageError, UsageError
  | TypeError, TypeError
  | ValueError, ValueError
  | IndexError, IndexError
  | KeyError, KeyError
  | ClusterNotFoundFault, ClusterNotFoundFault
  | ClientError, ClientError
  | Exit, Exit => true
  | _, _ => false
  end.

(** [str(e)], what [print(e)] writes. *)
Definition str (e : exn) : string := exn_msg e.

(** A Python evaluation: a value, or a raised exception. *)
Inductive res (A : Type) : Type :=
| Ok (a : A)
| Raise (e : exn).
Arguments Ok {A} a.
Arguments Raise {A} e.

Definition res_map {A B} (f : A -> B) (r : res A) : res B :=
  match r with
  | Ok a => Ok (f a)
  | Raise e => Raise e
  end.

(** [template.format(a1, ..., an)] for templates whose replacement fields are
    all the automatic [{}]: each field takes the next argument as it is
    (the arguments are [str] already), [{{] and [}}] are the escaped
    braces, surplus arguments are ignored. *)
Fixpoint format (template : string) (args : list string) : res string :=
  match template with
  | EmptyString => Ok EmptyString
  | String "{" (String "}" rest) =>
      match args with
      | a :: args' => res_map (append a) (format rest args')
      | [] => Raise (Exn IndexError
                "Replacement index out of range for positional args tuple")
      end
  | String "{" (String "{" rest) => res_map (String "{") (format rest args)
  | String "}" (String "}" rest) => res_map (String "}") (format rest args)
  | String "{" _ => Raise (Exn ValueError "unsupported replacement field")
  | String "}" _ =>
      Raise (Exn ValueError "Single '}' encountered in format string")
  | String c rest => res_map (String c) (format rest args)
  end.

(** [sep.join(xs)]. *)
Fixpoint join (sep : string) (xs : list string) : string :=
  match xs with
  | [] => EmptyString
  | [x] => x
  | x :: xs' => x ++ sep ++ join sep xs'
  end.

(** [x in xs] for a collection of strings. *)
Definition mem (x : string) (xs : list string) : bool :=
  existsb (String.eqb x) xs.

(** ** The external API *)

(** The [Role] structure of the IAM responses.  [RoleName] and [Arn] are
    required members of it, so as a Python dict it is never empty and
    [not role] is false for every role the API returns. *)
Record Role : Type := mkRole { RoleName : string; Arn : string }.

Record GetRoleResponse : Type := { get_Role : Role }.
Record CreateRoleResponse : Type := { create_Role : Role }.

Record ResponseMetadata : Type := { HTTPStatusCode : Z }.
Record AttachRolePolicyResponse : Type :=
  { attach_ResponseMetadata : ResponseMetadata }.

(** One element of the [Clusters] list of a [describe_clusters] answer. *)
Record Cluster : Type := { ClusterStatus : string }.
Record DescribeClustersResponse : Type := { Clusters : list Cluster }.

(** The answers of [create_cluster], [delete_cluster] and [delete_role]
    are not inspected by the program. *)
Definition AnyResponse : Type := list (string * string).

(** A keyword-argument value of the [create_cluster] call. *)
Inductive kwval : Type :=
| VStr (s : string)
| VInt (z : Z)
| VList (l : list string).

Definition kwargs : Type := list (string * kwval).

(** [d[k] = v] on a dict kept in insertion order. *)
Fixpoint dict_set (d : kwargs) (k : string) (v : kwval) : kwargs :=
  match d with
  | [] => [(k, v)]
  | (k', v') :: d' =>
      if String.eqb k' k then (k, v) :: d' else (k', v') :: dict_set d' k v
  end.

Definition has_key (k : string) (d : kwargs) : bool :=
  existsb (fun kv => String.eqb (fst kv) k) d.

(** The client calls the program makes, with their arguments. *)
Inductive ApiCall : Type :=
| create_role (Path RoleName Description AssumeRolePolicyDocument : string)
| attach_role_policy (RoleName PolicyArn : string)
| delete_role (positional : string)
| get_role (RoleName : string)
| describe_clusters (ClusterIdentifier : string)
| create_cluster (params : kwargs)
| delete_cluster (ClusterIdentifier : string)
                 (SkipFinalClusterSnapshot : bool).

(** What a run does that can be seen from outside. *)
Inductive Event : Type :=
| ECall (c : ApiCall)
| EPrint (line : string)
| ESleep (seconds : nat).

(** What the two clients answer.  [describe_clusters_resp n] is the
    answer to the call number [n] (from 0) of [describe_clusters]. *)
Record World : Type := mkWorld {
  get_role_resp : res GetRoleResponse;
  create_role_resp : res CreateRoleResponse;
  attach_role_policy_resp : res AttachRolePolicyResponse;
  delete_role_resp : res AnyResponse;
  describe_clusters_resp : nat -> res DescribeClustersResponse;
  create_cluster_resp : res AnyResponse;
  delete_cluster_resp : res AnyResponse
}.

(** ** The monad of runs *)

Definition M (A : Type) : Type := nat -> res A * nat * list Event.

Definition ret {A} (a : A) : M A := fun n => (Ok a, n, []).

Definition raise {A} (e : exn) : M A := fun n => (Raise e, n, []).

Definition bind {A B} (m : M A) (f : A -> M B) : M B := fun n =>
  match m n with
  | (Ok a, n', t) =>
      match f a n' with
      | (r, n'', t') => (r, n'', (t ++ t')%list)
      end
  | (Raise e, n', t) => (Raise e, n', t)
  end.

Notation "x <- m ;; k" := (bind m (fun x => k))
  (at level 61, m at next level, right associativity).
Notation "m ;; k" := (bind m (fun _ => k))
  (at level 61, right associativity).

Definition lift {A} (r : res A) : M A := fun n => (r, n, []).

Definition emit (e : Event) : M unit := fun n => (Ok tt, n, [e]).

Definition print (line : string) : M unit := emit (EPrint line).

Definition sleep (seconds : nat) : M unit := emit (ESleep seconds).

(** [try: body except Exception as e: handler e]. *)
Definition try_except {A} (body : M A) (handler : exn -> M A) : M A :=
  fun n =>
    match body n with
    | (Ok a, n', t) => (Ok a, n', t)
    | (Raise e, n', t) =>
        match handler e n' with
        | (r, n'', t') => (r, n'', (t ++ t')%list)
        end
    end.

(** [try: body except cls: handler]: only exceptions of class [cls] are
    caught, any other goes on propagating. *)
Definition try_except_cls {A} (cls : exn_class) (body : M A)
    (handler : M A) : M A :=
  try_except body
    (fun e => if exn_class_eqb (exn_cls e) cls then handler else raise e).

(** The projections of a finished run. *)
Definition result {A} (r : res A * nat * list Event) : res A := fst (fst r).
Definition calls_after {A} (r : res A * nat * list Event) : nat :=
  snd (fst r).
Definition trace {A} (r : res A * nat * list Event) : list Event := snd r.

(** [xs[0]]. *)
Definition item0 {A} (xs : list A) : res A :=
  match xs with
  | x :: _ => Ok x
  | [] => Raise (Exn IndexError "list index out of range")
  end.

(** [role['Arn']] where [role] is a role dict or [None]. *)
Definition subscript_Arn (role : option Role) : res string :=
  match role with
  | Some r => Ok (Arn r)
  | None => Raise (Exn TypeError "'NoneType' object is not subscriptable")
  end.

(** [not x] for [x] a role dict or [None]. *)
Definition py_not (role : option Role) : bool :=
  match role with
  | Some _ => false
  | None => true
  end.

Definition res_bind {A B} (r : res A) (f : A -> res B) : res B :=
  match r with
  | Ok a => f a
  | Raise e => Raise e
  end.

(** ** redshift_util.py: the option class *)

(** [MutuallyExclusiveOption]: a click option with the names of the
    options it excludes.  The source keeps them in a Python set; the list
    fixes one order of iteration for the message. *)
Record MutuallyExclusiveOption : Type := {
  name : string;
  mutually_exclusive : list string
}.

(** [self.mutually_exclusive.intersection(opts)]. *)
Definition intersection (xs opts : list string) : list string :=
  filter (fun x => mem x opts) xs.

(** [handle_parse_result(self, ctx, opts, args)].  [opts] holds the names
    of the options the parser found on the command line.  When the check
    passes, the parent class gives the flag its value: true when the
    option is among [opts], the default false otherwise. *)
Definition handle_parse_result (self : MutuallyExclusiveOption)
    (opts : list string) : res bool :=
  if negb (Nat.eqb (length (intersection (mutually_exclusive self) opts)) 0)
     && mem (name self) opts
  then
    res_bind
      (format
         "Illegal usage: `{}` is mutually exclusive with arguments `{}`."
         [name self; join ", " (mutually_exclusive self)])
      (fun msg => Raise (Exn UsageError msg))
  else Ok (mem (name self) opts).

(** ** redshift_util.py: the helpers and [main] *)

Definition dq : string := String (ascii_of_nat 34) EmptyString.

Definition quoted (s : string) : string := dq ++ s ++ dq.

(** [json.dumps] of the trust policy of [create_iam_role]. *)
Definition assume_role_policy_document : string :=
  "{" ++ quoted "Statement" ++ ": [{"
      ++ quoted "Action" ++ ": " ++ quoted "sts:AssumeRole" ++ ", "
      ++ quoted "Effect" ++ ": " ++ quoted "Allow" ++ ", "
      ++ quoted "Principal" ++ ": {"
      ++ quoted "Service" ++ ": " ++ quoted "redshift.amazonaws.com"
      ++ "}}], "
      ++ quoted "Version" ++ ": " ++ quoted "2012-10-17" ++ "}".

Definition role_description : string :=
  "Allows Redshift clusters to                 call AWS services on your behalf.".

(** The values [main] reads from [dwh.cfg]. *)
Record Config : Type := mkConfig {
  KEY : string;
  SECRET : string;
  DWH_CLUSTER_TYPE : string;
  DWH_NUM_NODES : string;
  DWH_NODE_TYPE : string;
  DWH_CLUSTER_IDENTIFIER : string;
  DWH_DB : string;
  DWH_DB_USER : string;
  DWH_DB_PASSWORD : string;
  DWH_IAM_ROLE_NAME : string;
  DWH_REGION : string
}.

Section RedshiftUtil.

(** Python's [int] on a string: the number, or a [ValueError]. *)
Variable int : string -> res Z.

Variable w : World.

(** *** The client methods *)

Definition iam_create_role (Path RoleName Description
    AssumeRolePolicyDocument : string) : M CreateRoleResponse :=
  fun n =>
    (create_role_resp w, n,
     [ECall (create_role Path RoleName Description
               AssumeRolePolicyDocument)]).

Definition iam_attach_role_policy (RoleName PolicyArn : string)
    : M AttachRolePolicyResponse :=
  fun n =>
    (attach_role_policy_resp w, n,
     [ECall (attach_role_policy RoleName PolicyArn)]).

(** [delete_role] is called with a positional argument; what the client
    makes of that is part of its answer. *)
Definition iam_delete_role (positional : string) : M AnyResponse :=
  fun n => (delete_role_resp w, n, [ECall (delete_role positional)]).

Definition iam_get_role (RoleName : string) : M GetRoleResponse :=
  fun n => (get_role_resp w, n, [ECall (get_role RoleName)]).

Definition redshift_describe_clusters (ClusterIdentifier : string)
    : M DescribeClustersResponse :=
  fun n =>
    (describe_clusters_resp w n, S n,
     [ECall (describe_clusters ClusterIdentifier)]).

Definition redshift_create_cluster (params : kwargs) : M AnyResponse :=
  fun n => (create_cluster_resp w, n, [ECall (create_cluster params)]).

Definition redshift_delete_cluster (ClusterIdentifier : string)
    (SkipFinalClusterSnapshot : bool) : M AnyResponse :=
  fun n =>
    (delete_cluster_resp w, n,
     [ECall (delete_cluster ClusterIdentifier SkipFinalClusterSnapshot)]).

(** *** The helpers *)

Definition create_iam_role (DWH_IAM_ROLE_NAME : string)
    : M (option Role) :=
  try_except
    (line <- lift (format "Creating a new IAM Role: {}"
                     [DWH_IAM_ROLE_NAME]);;
     print line;;
     dwhRole <- iam_create_role "/" DWH_IAM_ROLE_NAME role_description
                  assume_role_policy_document;;
     print "Attaching Policy";;
     attached <- iam_attach_role_policy DWH_IAM_ROLE_NAME
                   "arn:aws:iam::aws:policy/AmazonS3ReadOnlyAccess";;
     let _ := HTTPStatusCode (attach_ResponseMetadata attached) in
     ret (Some (create_Role dwhRole)))
    (fun e => print (str e);; ret None).

Definition delete_iam_role (DWH_IAM_ROLE_NAME : string) : M unit :=
  try_except
    (line <- lift (format "Deleting the IAM Role: {}"
                     [DWH_IAM_ROLE_NAME]);;
     print line;;
     iam_delete_role DWH_IAM_ROLE_NAME;;
     ret tt)
    (fun e => print (str e);; ret tt).

Definition get_iam_role (DWH_IAM_ROLE_NAME : string) : M (option Role) :=
  try_except
    (line <- lift (format "Get the IAM Role: {}" [DWH_IAM_ROLE_NAME]);;
     print line;;
     r <- iam_get_role DWH_IAM_ROLE_NAME;;
     ret (Some (get_Role r)))
    (fun e => print (str e);; ret None).

Definition get_cluster_status (DWH_CLUSTER_IDENTIFIER : string)
    : M string :=
  try_except_cls ClusterNotFoundFault
    (line <- lift (format "Get Redshift cluster status: {}"
                     [DWH_CLUSTER_IDENTIFIER]);;
     print line;;
     r <- redshift_describe_clusters DWH_CLUSTER_IDENTIFIER;;
     myClusterProps <- lift (item0 (Clusters r));;
     ret (ClusterStatus myClusterProps))
    (ret "unknown").

Definition create_redshift_cluster (roleArn DWH_CLUSTER_TYPE
    DWH_NODE_TYPE DWH_NUM_NODES DWH_DB DWH_CLUSTER_IDENTIFIER
    DWH_DB_USER DWH_DB_PASSWORD : string) : M (option AnyResponse) :=
  try_except
    (line <- lift (format "Create Redshift cluster: {}"
                     [DWH_CLUSTER_IDENTIFIER]);;
     print line;;
     let hw_params := [("ClusterType", VStr DWH_CLUSTER_TYPE)] in
     hw_params <-
       (if String.eqb DWH_NODE_TYPE "multi-node"
        then
          nodes <- lift (int DWH_NUM_NODES);;
          ret (dict_set hw_params "NumberOfNodes" (VInt nodes))
        else ret hw_params);;
     let hw_params := dict_set hw_params "NodeType" (VStr DWH_NODE_TYPE) in
     response <-
       redshift_create_cluster
         (hw_params ++
          [("DBName", VStr DWH_DB);
           ("ClusterIdentifier", VStr DWH_CLUSTER_IDENTIFIER);
           ("MasterUsername", VStr DWH_DB_USER);
           ("MasterUserPassword", VStr DWH_DB_PASSWORD);
           ("IamRoles", VList [roleArn])])%list;;
     ret (Some response))
    (fun e => print (str e);; ret None).

Definition delete_redshift_cluster (DWH_CLUSTER_IDENTIFIER : string)
    : M unit :=
  try_except
    (line <- lift (format "Delete Redshift cluster: {}"
                     [DWH_CLUSTER_IDENTIFIER]);;
     print line;;
     redshift_delete_cluster DWH_CLUSTER_IDENTIFIER true;;
     ret tt)
    (fun e => print (str e);; ret tt).

(** *** The polling loop

    The two loops of [main] are the same text up to the status they
    wait for:
<<
    i = 10
    while i > 0:
        status = get_cluster_status(redshift_client, DWH_CLUSTER_IDENTIFIER)
        if(status == target):
            break
        i -= 1
        time.sleep(10)

        print(status)
>>
    [poll_loop target cid i status] runs it from the counter [i] and the
    current value of the variable [status], and returns the last value
    of [status]. *)
Fixpoint poll_loop (target DWH_CLUSTER_IDENTIFIER : string) (i : nat)
    (status : string) : M string :=
  match i with
  | 0 => ret status
  | S i' =>
      status <- get_cluster_status DWH_CLUSTER_IDENTIFIER;;
      if String.eqb status target then ret status
      else
        sleep 10;;
        print status;;
        poll_loop target DWH_CLUSTER_IDENTIFIER i' status
  end.

(** *** [main] *)

Definition main (cfg : Config) (create delete status : bool) : M unit :=
  let DWH_CLUSTER_TYPE := DWH_CLUSTER_TYPE cfg in
  let DWH_NUM_NODES := DWH_NUM_NODES cfg in
  let DWH_NODE_TYPE := DWH_NODE_TYPE cfg in
  let DWH_CLUSTER_IDENTIFIER := DWH_CLUSTER_IDENTIFIER cfg in
  let DWH_DB := DWH_DB cfg in
  let DWH_DB_USER := DWH_DB_USER cfg in
  let DWH_DB_PASSWORD := DWH_DB_PASSWORD cfg in
  let DWH_IAM_ROLE_NAME := DWH_IAM_ROLE_NAME cfg in
  (if status
   then
     s <- get_cluster_status DWH_CLUSTER_IDENTIFIER;;
     print s
   else ret tt);;
  (if create
   then
     dwhRole <- get_iam_role DWH_IAM_ROLE_NAME;;
     dwhRole <- (if py_not dwhRole
                 then create_iam_role DWH_IAM_ROLE_NAME
                 else ret dwhRole);;
     status <- get_cluster_status DWH_CLUSTER_IDENTIFIER;;
     if String.eqb status "unknown"
     then
       roleArn <- lift (subscript_Arn dwhRole);;
       create_redshift_cluster roleArn DWH_CLUSTER_TYPE DWH_NODE_TYPE
         DWH_NUM_NODES DWH_DB DWH_CLUSTER_IDENTIFIER DWH_DB_USER
         DWH_DB_PASSWORD;;
       sleep 10;;
       poll_loop "available" DWH_CLUSTER_IDENTIFIER 10 status;;
       ret tt
     else ret tt
   else ret tt);;
  (if delete
   then
     status <- get_cluster_status DWH_CLUSTER_IDENTIFIER;;
     if String.eqb status "available"
     then
       delete_redshift_cluster DWH_CLUSTER_IDENTIFIER;;
       poll_loop "unknown" DWH_CLUSTER_IDENTIFIER 10 status;;
       ret tt
     else ret tt
   else ret tt).

(** *** The command

    The three options as the decorators declare them: the [params] of
    the command.  The help option that click adds to every command is
    not among them; it comes in with [get_params] below. *)
Definition option_create : MutuallyExclusiveOption :=
  {| name := "create"; mutually_exclusive := ["delete"; "status"] |}.
Definition option_delete : MutuallyExclusiveOption :=
  {| name := "delete"; mutually_exclusive := ["create"; "status"] |}.
Definition option_status : MutuallyExclusiveOption :=
  {| name := "status"; mutually_exclusive := ["create"; "delete"] |}.

Definition params : list MutuallyExclusiveOption :=
  [option_create; option_delete; option_status].

(** A parameter click processes for the command: a declared option, or
    the [--help] option of [@command()], which is eager and whose value
    is not handed to the function. *)
Inductive Param : Type :=
| Declared (o : MutuallyExclusiveOption)
| HelpOption.

Definition param_name (p : Param) : string :=
  match p with
  | Declared o => name o
  | HelpOption => "help"
  end.

Definition is_eager (p : Param) : bool :=
  match p with
  | Declared _ => false
  | HelpOption => true
  end.

(** [Command.get_params]: the declared options, then the help option. *)
Definition get_params : list Param :=
  (map Declared params ++ [HelpOption])%list.

(** The first occurrence of each name of [names], in order. *)
Fixpoint first_occurrences (seen names : list string) : list string :=
  match names with
  | [] => []
  | x :: rest =>
      if mem x seen then first_occurrences seen rest
      else x :: first_occurrences (x :: seen) rest
  end.

(** The parameters [ps] by the place of their first occurrence on the
    command line, the ones that do not occur there last, in the order
    they have in [ps]. *)
Definition in_invocation_order (invocation_order : list string)
    (ps : list Param) : list Param :=
  (flat_map
     (fun x => filter (fun p => String.eqb (param_name p) x) ps)
     (first_occurrences [] invocation_order)
   ++ filter (fun p => negb (mem (param_name p) invocation_order)) ps)%list.

(** The order in which click processes the parameters of a command (a
    stable sort by eagerness, then by place on the command line): the
    eager ones first, the others after them, each group in the order the
    parameters were given on the command line and then the order of
    declaration. *)
Definition iter_params_for_processing (invocation_order : list string)
    (declaration_order : list Param) : list Param :=
  (in_invocation_order invocation_order
     (filter is_eager declaration_order)
   ++ in_invocation_order invocation_order
        (filter (fun p => negb (is_eager p)) declaration_order))%list.

(** The page [ctx.get_help()] gives for the command, as click lays it
    out. *)
Variable get_help : string.

(** The callback of the help option: when the flag is given, the help
    page is echoed and [ctx.exit()] raises [Exit] with the code 0. *)
Definition show_help (value : bool) : M bool :=
  if value
  then
    print get_help;;
    raise (Exn Exit "0")
  else ret value.

(** One parameter handles the parse result; what it adds to the
    parameters of the context. *)
Definition process_param (opts : list string) (p : Param)
    : M (list (string * bool)) :=
  match p with
  | Declared o =>
      v <- lift (handle_parse_result o opts);;
      ret [(name o, v)]
  | HelpOption =>
      show_help (mem "help" opts);;
      ret []
  end.

(** Each parameter handles the parse result in turn and its value goes
    into the context; the first exception ends the processing. *)
Fixpoint process_params (opts : list string) (ps : list Param)
    : M (list (string * bool)) :=
  match ps with
  | [] => ret []
  | p :: ps' =>
      added <- process_param opts p;;
      others <- process_params opts ps';;
      ret (added ++ others)%list
  end.

Definition param_value (x : string) (ctx : list (string * bool)) : bool :=
  match find (fun kv => String.eqb (fst kv) x) ctx with
  | Some kv => snd kv
  | None => false
  end.

(** The command [main] as click runs it on the options [opts] of the
    command line (by name, in the order given): the parameters are
    processed, then the function is called with their values.  An
    exception that leaves it goes to click's standalone wrapper, which
    turns a [UsageError] into the exit code 2 and an [Exit] into its
    code. *)
Definition command (cfg : Config) (opts : list string) : M unit :=
  ctx <- process_params opts (iter_params_for_processing opts get_params);;
  main cfg (param_value "create" ctx) (param_value "delete" ctx)
    (param_value "status" ctx).

End RedshiftUtil.

(** ** sql_queries.py

    The module reads [dwh.cfg] when it is imported and builds its
    statements once.  [SqlConfig] holds the four values it takes from the
    configuration, as [configparser] gives them; the statements written as
    plain literals are constants, the two COPY statements are made by
    [str.format] from their templates. *)
Module SqlQueries.

Record SqlConfig : Type := mkSqlConfig {
  LOG_DATA : string;
  LOG_JSONPATH : string;
  SONG_DATA : string;
  ARN : string
}.

Definition staging_events_table_drop : string :=
"DROP TABLE IF EXISTS staging_events".

Definition staging_songs_table_drop : string :=
"DROP TABLE IF EXISTS staging_songs".

Definition songplay_table_drop : string :=
"DROP TABLE IF EXISTS songplays".

Definition user_table_drop : string :=
"DROP TABLE IF EXISTS users".

Definition song_table_drop : string :=
"DROP TABLE IF EXISTS songs".

Definition artist_table_drop : string :=
"DROP TABLE IF EXISTS artists".

Definition time_table_drop : string :=
"DROP TABLE IF EXISTS time".

Definition staging_events_table_create : string :=
"
CREATE TABLE IF NOT EXISTS staging_events(
    artist varchar,
    auth varchar,
    firstName varchar,
    gender varchar,
    itemInSession int,
    lastName varchar,
    length float,
    level varchar,
    location varchar,
    method varchar,
    page varchar,
    registration float,
    sessionId int,
    song varchar,
    status int,
    ts bigint,
    userAgent varchar,
    userId int
)
".

Definition staging_songs_table_create : string :=
"
CREATE TABLE IF NOT EXISTS staging_songs(
    num_songs int,
    artist_id varchar,
    artist_latitude float,
    artist_longitude float,
    artist_location varchar,
    artist_name varchar,
    song_id varchar,
    title varchar,
    duration float,
    year int
)
".

Definition songplay_table_create : string :=
"
CREATE TABLE IF NOT EXISTS songplays(
    songplay_id bigint IDENTITY(0,1) PRIMARY KEY,
    start_time timestamp NOT NULL,
    user_id int NOT NULL,
    level varchar NOT NULL,
    song_id varchar NOT NULL,
    artist_id varchar NOT NULL,
    session_id int,
    location varchar,
    user_agent varchar,
    FOREIGN KEY (start_time) REFERENCES time (start_time),
    FOREIGN KEY (artist_id) REFERENCES artists (artist_id),
    FOREIGN KEY (user_id) REFERENCES users (user_id),
    FOREIGN KEY (song_id) REFERENCES songs (song_id)
)
".

Definition user_table_create : string :=
"
CREATE TABLE IF NOT EXISTS users (
    user_id int PRIMARY KEY,
    first_name varchar NOT NULL,
    last_name varchar NOT NULL,
    gender varchar(1) NOT NULL,
    level varchar NOT NULL
)
".

Definition song_table_create : string :=
"
CREATE TABLE IF NOT EXISTS songs (
    song_id varchar PRIMARY KEY,
    title varchar NOT NULL,
    artist_id varchar NOT NULL,
    year int,
    duration numeric,
    FOREIGN KEY (artist_id) REFERENCES artists (artist_id)
)
".

Definition artist_table_create : string :=
"
CREATE TABLE IF NOT EXISTS artists (
    artist_id varchar PRIMARY KEY,
    name varchar NOT NULL,
    location varchar,
    latitude float,
    longitude float
)
".

Definition time_table_create : string :=
"
CREATE TABLE IF NOT EXISTS time (
    start_time timestamp PRIMARY KEY,
    hour int,
    day int,
    week int,
    month int,
    year int,
    weekday int
)
".

Definition staging_events_copy_template : string :=
"
    copy staging_events
    from {}
    iam_role {}
    format as json {}
".

Definition staging_songs_copy_template : string :=
"
    copy staging_songs
    from {}
    iam_role {}
    json 'auto'
".

Definition songplay_table_insert : string :=
"
INSERT INTO songplays (
    start_time, user_id, level, song_id,
    artist_id, session_id, location, user_agent)
SELECT
    DATEADD(ms, ts, '1970-01-01 00:00:00') AS start_time,
    events.userId as user_id,
    events.level,
    songs.song_id,
    songs.artist_id,
    events.sessionId AS session_id,
    events.location,
    events.userAgent AS user_agent
FROM staging_events events
JOIN staging_songs songs
ON (events.song = songs.title
AND events.length = songs.duration
AND events.artist = songs.artist_name)
WHERE events.page='NextSong';
".

Definition user_table_insert : string :=
"
INSERT INTO users (user_id, first_name, last_name, gender, level)
SELECT
    DISTINCT
    userId as user_id,
    firstName as first_name,
    lastName as last_name,
    gender,
    last_value(level) over (
            partition by userId
            rows between unbounded preceding and unbounded following)
FROM staging_events WHERE userId is NOT NULL;
".

Definition song_table_insert : string :=
"
INSERT INTO songs (song_id, title, artist_id, year, duration)
SELECT
    DISTINCT song_id,
    title,
    artist_id,
    year,
    duration
FROM staging_songs;
".

Definition artist_table_insert : string :=
"
INSERT INTO artists (artist_id, name, location, latitude, longitude)
SELECT
    DISTINCT artist_id,
    artist_name,
    artist_location,
    artist_latitude,
    artist_longitude
FROM staging_songs;
".

Definition time_table_insert : string :=
"
INSERT INTO time (start_time, hour, day, week, month, year, weekday)
SELECT DISTINCT(DATEADD(ms, ts, '1970-01-01 00:00:00')) as start_time,
        EXTRACT (hour FROM start_time) AS hour,
        EXTRACT (day FROM start_time) AS day,
        EXTRACT (week FROM start_time) AS week,
        EXTRACT (month FROM start_time) AS month,
        EXTRACT (year FROM start_time) AS year,
        EXTRACT (weekday FROM start_time) AS weekday
FROM staging_events;
".

Definition staging_events_copy (config : SqlConfig) : res string :=
  format staging_events_copy_template
    [LOG_DATA config; ARN config; LOG_JSONPATH config].

Definition staging_songs_copy (config : SqlConfig) : res string :=
  format staging_songs_copy_template [SONG_DATA config; ARN config].

(** The four lists the ETL scripts import. *)
Record Catalog : Type := mkCatalog {
  create_table_queries : list string;
  drop_table_queries : list string;
  copy_table_queries : list string;
  insert_table_queries : list string
}.

(** Importing the module: the COPY statements are formatted (an exception
    there ends the import), then the lists are built. *)
Definition load (config : SqlConfig) : res Catalog :=
  res_bind (staging_events_copy config) (fun staging_events_copy =>
  res_bind (staging_songs_copy config) (fun staging_songs_copy =>
  Ok {| create_table_queries :=
          [staging_events_table_create;
           staging_songs_table_create; user_table_create;
           artist_table_create; song_table_create;
           time_table_create; songplay_table_create];
        drop_table_queries :=
          [staging_events_table_drop; staging_songs_table_drop;
           songplay_table_drop; user_table_drop; song_table_drop;
           artist_table_drop; time_table_drop];
        copy_table_queries := [staging_events_copy; staging_songs_copy];
        insert_table_queries :=
          [user_table_insert; artist_table_insert;
           song_table_insert; time_table_insert;
           songplay_table_insert] |})).

End SqlQueries.

(** * Vocabulary of the statements *)

(** The status (or the exception) that the call number [n] of
    [describe_clusters] makes [get_cluster_status] give. *)
Definition observed (w : World) (cid : string) (n : nat) : res string :=
  result (get_cluster_status w cid n).

(** The answer to the call number [n] of [describe_clusters] is one the
    API gives: the status it reports for a cluster does not read
    ['unknown'], which is not among the values of [ClusterStatus]. *)
Definition reports_real_status (w : World) (n : nat) : Prop :=
  forall r c cs,
    describe_clusters_resp w n = Ok r ->
    Clusters r = c :: cs ->
    ClusterStatus c <> "unknown".

(** The line [get_cluster_status] prints before it asks. *)
Definition status_banner (cid : string) : string :=
  "Get Redshift cluster status: " ++ cid ++ "".

(** The client calls of a trace, in order. *)
Fixpoint api_calls (t : list Event) : list ApiCall :=
  match t with
  | [] => []
  | ECall c :: t' => c :: api_calls t'
  | _ :: t' => api_calls t'
  end.

Definition count_calls (p : ApiCall -> bool) (t : list Event) : nat :=
  length (filter p (api_calls t)).

Definition is_describe (c : ApiCall) : bool :=
  match c with
  | describe_clusters _ => true
  | _ => false
  end.

Definition is_create_role (c : ApiCall) : bool :=
  match c with
  | create_role _ _ _ _ => true
  | _ => false
  end.

Definition is_attach_role_policy (c : ApiCall) : bool :=
  match c with
  | attach_role_policy _ _ => true
  | _ => false
  end.

(** The calls that create or delete a cluster. *)
Definition is_cluster_mutation (c : ApiCall) : bool :=
  match c with
  | create_cluster _ | delete_cluster _ _ => true
  | _ => false
  end.

(** The number of describe-status calls in a trace. *)
Definition describe_calls (t : list Event) : nat := count_calls is_describe t.

(** [needle] occurs in [hay] as it is. *)
Definition occurs_in (needle hay : string) : Prop :=
  exists before after, hay = before ++ needle ++ after.

(** A finished run, after the events [t]. *)
Definition with_prefix {A} (t : list Event) (x : res A * nat * list Event)
    : res A * nat * list Event :=
  (result x, calls_after x, (t ++ trace x)%list).

(** The role the create flow goes on with: the one the lookup gives, or
    else the one the creation gives, or else [None]. *)
Definition role_obtained (w : World) (nm : string) (n : nat) : option Role :=
  match result (get_iam_role w nm n) with
  | Ok (Some r) => Some r
  | _ =>
      match result (create_iam_role w nm n) with
      | Ok (Some r) => Some r
      | _ => None
      end
  end.

(** The create flow of [main] from its status check on, for the value
    [dwhRole] that the part before it leaves in the variable. *)
Definition create_cluster_phase (int : string -> res Z) (w : World)
    (cfg : Config) (dwhRole : option Role) : M unit :=
  status <- get_cluster_status w (DWH_CLUSTER_IDENTIFIER cfg);;
  if String.eqb status "unknown"
  then
    roleArn <- lift (subscript_Arn dwhRole);;
    create_redshift_cluster int w roleArn (DWH_CLUSTER_TYPE cfg)
      (DWH_NODE_TYPE cfg) (DWH_NUM_NODES cfg) (DWH_DB cfg)
      (DWH_CLUSTER_IDENTIFIER cfg) (DWH_DB_USER cfg) (DWH_DB_PASSWORD cfg);;
    sleep 10;;
    poll_loop w "available" (DWH_CLUSTER_IDENTIFIER cfg) 10 status;;
    ret tt
  else ret tt.

(** The calls of the five helpers that wrap their client call in
    [try: ... except Exception as e: print(e)]. *)
Inductive helper_call : Type :=
| call_create_iam_role (DWH_IAM_ROLE_NAME : string)
| call_get_iam_role (DWH_IAM_ROLE_NAME : string)
| call_delete_iam_role (DWH_IAM_ROLE_NAME : string)
| call_create_redshift_cluster (roleArn DWH_CLUSTER_TYPE DWH_NODE_TYPE
    DWH_NUM_NODES DWH_DB DWH_CLUSTER_IDENTIFIER DWH_DB_USER
    DWH_DB_PASSWORD : string)
| call_delete_redshift_cluster (DWH_CLUSTER_IDENTIFIER : string).

Definition is_None {A} (x : option A) : bool :=
  match x with
  | None => true
  | Some _ => false
  end.

(** A helper call, run; the value says whether the helper returned
    [None].  The two deleting helpers have no [return] statement. *)
Definition run_helper (int : string -> res Z) (w : World) (h : helper_call)
    : M bool :=
  match h with
  | call_create_iam_role nm =>
      r <- create_iam_role w nm;; ret (is_None r)
  | call_get_iam_role nm =>
      r <- get_iam_role w nm;; ret (is_None r)
  | call_delete_iam_role nm =>
      delete_iam_role w nm;; ret true
  | call_create_redshift_cluster arn ct nt nn db cid user pw =>
      r <- create_redshift_cluster int w arn ct nt nn db cid user pw;;
      ret (is_None r)
  | call_delete_redshift_cluster cid =>
      delete_redshift_cluster w cid;; ret true
  end.

(** The external API raises [e] inside the helper call [h]: the client
    method the helper reaches answers with the exception [e].
    [create_iam_role] reaches [attach_role_policy] once [create_role] has
    answered; [create_redshift_cluster] reaches [create_cluster] once the
    hardware parameters are built. *)
Definition api_raises (int : string -> res Z) (w : World) (h : helper_call)
    (e : exn) : Prop :=
  match h with
  | call_create_iam_role _ =>
      create_role_resp w = Raise e \/
      ((exists r, create_role_resp w = Ok r) /\
       attach_role_policy_resp w = Raise e)
  | call_get_iam_role _ => get_role_resp w = Raise e
  | call_delete_iam_role _ => delete_role_resp w = Raise e
  | call_create_redshift_cluster _ _ nt nn _ _ _ _ =>
      (nt = "multi-node" -> exists z, int nn = Ok z) /\
      create_cluster_resp w = Raise e
  | call_delete_redshift_cluster _ => delete_cluster_resp w = Raise e
  end.

(** The keyword arguments of [create_cluster] after the hardware
    parameters. *)
Definition identifiers_and_roles (db cid user pw arn : string) : kwargs :=
  [("DBName", VStr db); ("ClusterIdentifier", VStr cid);
   ("MasterUsername", VStr user); ("MasterUserPassword", VStr pw);
   ("IamRoles", VList [arn])].

(** The three flags of the command. *)
Definition flags : list string := ["create"; "delete"; "status"].

(** ** Sample inputs *)

Module Sample.

Fixpoint digits_value (acc : Z) (s : string) : option Z :=
  match s with
  | EmptyString => Some acc
  | String c rest =>
      let d := nat_of_ascii c in
      if (Nat.leb 48 d) && (Nat.leb d 57)
      then digits_value (10 * acc + Z.of_nat (d - 48)) rest
      else None
  end.

(** [int] on strings of plain decimal digits. *)
Definition int (s : string) : res Z :=
  match s with
  | EmptyString =>
      Raise (Exn ValueError "invalid literal for int() with base 10")
  | _ =>
      match digits_value 0 s with
      | Some z => Ok z
      | None =>
          Raise (Exn ValueError "invalid literal for int() with base 10")
      end
  end.

Definition cfg : Config :=
  mkConfig "key" "secret" "multi-node" "4" "dc2.large" "dwhCluster"
    "dwh" "dwhuser" "Passw0rd" "dwhRole" "us-west-2".

Definition role : Role :=
  mkRole "dwhRole" "arn:aws:iam::123456789012:role/dwhRole".

Definition not_found : exn :=
  Exn ClusterNotFoundFault "Cluster dwhCluster not found.".

Definition no_such_entity : exn :=
  Exn ClientError "The role with name dwhRole cannot be found.".

Definition access_denied : exn :=
  Exn ClientError "User is not authorized to perform the operation.".

Definition status_is (s : string) : res DescribeClustersResponse :=
  Ok {| Clusters := [ {| ClusterStatus := s |} ] |}.

Definition attached : res AttachRolePolicyResponse :=
  Ok {| attach_ResponseMetadata := {| HTTPStatusCode := 200 |} |}.

(** No role and no cluster yet; the new cluster is [creating] for three
    polls and [available] from then on. *)
Definition fresh : World :=
  mkWorld (Raise no_such_entity) (Ok {| create_Role := role |}) attached
    (Ok [])
    (fun n => if Nat.eqb n 0 then Raise not_found
              else if Nat.leb n 3 then status_is "creating"
              else status_is "available")
    (Ok []) (Ok []).

(** The role is there and the cluster is [available]; once deleted it is
    [deleting] for two polls and gone from then on. *)
Definition running : World :=
  mkWorld (Ok {| get_Role := role |}) (Ok {| create_Role := role |})
    attached (Ok [])
    (fun n => if Nat.eqb n 0 then status_is "available"
              else if Nat.leb n 2 then status_is "deleting"
              else Raise not_found)
    (Ok []) (Ok []).

(** Every IAM and cluster mutation call is refused; there is no
    cluster. *)
Definition denied : World :=
  mkWorld (Raise access_denied) (Raise access_denied)
    (Raise access_denied) (Raise access_denied)
    (fun _ => Raise not_found)
    (Raise access_denied) (Raise access_denied).

(** The role is there; a new cluster is [available] at the first
    poll. *)
Definition quick : World :=
  mkWorld (Ok {| get_Role := role |}) (Ok {| create_Role := role |})
    attached (Ok [])
    (fun n => if Nat.eqb n 0 then Raise not_found else status_is "available")
    (Ok []) (Ok []).

End Sample.

(** ** redshift_util.py: the help text of the option class *)

(** [set(xs)], listed in one order of iteration: the first occurrences. *)
Definition set_of (xs : list string) : list string :=
  first_occurrences [] xs.

(** [MutuallyExclusiveOption.__init__]: the keyword argument
    [mutually_exclusive] (a missing one counts as the empty list) becomes
    the set of the option; when that set is not empty, the keyword
    argument [help] (a missing one counts as the empty string) is
    replaced by itself followed by a note that lists the set.  The value
    is the set and the [help] that goes on to click's [Option]. *)
Definition init (mutually_exclusive : option (list string))
    (help : option string) : list string * option string :=
  let self_mutually_exclusive :=
    set_of (match mutually_exclusive with
            | Some xs => xs
            | None => []
            end) in
  let help0 := match help with
               | Some h => h
               | None => EmptyString
               end in
  match self_mutually_exclusive with
  | [] => (self_mutually_exclusive, help)
  | _ :: _ =>
      let ex_str := join ", " self_mutually_exclusive in
      (self_mutually_exclusive,
       Some (help0 ++ (" NOTE: This argument is mutually exclusive with "
                       ++ " arguments: [" ++ ex_str ++ "].")))
  end.

(** ** Vocabulary of the further properties *)

(** The command line names at most one of the three flags (possibly more
    than once). *)
Definition at_most_one_flag (opts : list string) : Prop :=
  forall a b, In a flags -> In b flags -> In a opts -> In b opts -> a = b.

(** The seconds a run has slept. *)
Fixpoint slept (t : list Event) : nat :=
  match t with
  | [] => 0
  | ESleep s :: t' => s + slept t'
  | _ :: t' => slept t'
  end.

(** [d.get(k)]. *)
Definition dict_get (k : string) (d : kwargs) : option kwval :=
  match find (fun kv => String.eqb (fst kv) k) d with
  | Some kv => Some (snd kv)
  | None => None
  end.

(** The flag under which the command may make the call [c]; [None] for a
    call it may always make, [Some None] for one it may never make. *)
Definition flag_of_call (c : ApiCall) : option (option string) :=
  match c with
  | describe_clusters _ => None
  | get_role _ | create_role _ _ _ _ | attach_role_policy _ _
  | create_cluster _ => Some (Some "create")
  | delete_cluster _ _ => Some (Some "delete")
  | delete_role _ => Some None
  end.

Definition call_allowed (opts : list string) (c : ApiCall) : bool :=
  match flag_of_call c with
  | None => true
  | Some (Some flag) => mem flag opts
  | Some None => false
  end.

(** ** Further sample inputs *)

Module SampleFailures.

Definition throttled : exn := Exn ClientError "Rate exceeded".

(** The role is there; the new cluster is [creating] at the first poll
    and the second poll is refused. *)
Definition flaky : World :=
  mkWorld (Ok {| get_Role := Sample.role |})
    (Ok {| create_Role := Sample.role |})
    Sample.attached (Ok [])
    (fun n => if Nat.eqb n 0 then Raise Sample.not_found
              else if Nat.leb n 1 then Sample.status_is "creating"
              else Raise throttled)
    (Ok []) (Ok []).

End SampleFailures.

Module SampleRefused.

(** The role is there and so is no cluster; the creation of the cluster
    is refused, and every poll finds no cluster. *)
Definition refused : World :=
  mkWorld (Ok {| get_Role := Sample.role |})
    (Ok {| create_Role := Sample.role |})
    Sample.attached (Ok [])
    (fun _ => Raise Sample.not_found)
    (Raise Sample.access_denied) (Ok []).

End SampleRefused.

(** * Properties *)

(** ** Runs of the monad *)

Lemma bind_run {A B} (m : M A) (f : A -> M B) (n : nat) :
  bind m f n =
  match m n with
  | (Ok a, n', t) =>
      (result (f a n'), calls_after (f a n'), (t ++ trace (f a n'))%list)
  | (Raise e, n', t) => (Raise e, n', t)
  end.
Proof.
  unfold bind, result, calls_after, trace.
  destruct (m n) as [[[a | e] n'] t]; [| reflexivity].
  destruct (f a n') as [[r n''] t']; reflexivity.
Qed.

Lemma api_calls_app (t1 t2 : list Event) :
  api_calls (t1 ++ t2) = (api_calls t1 ++ api_calls t2)%list.
Proof.
  induction t1 as [| [c | l | s] t1 IH]; cbn; [reflexivity | | |];
    rewrite IH; reflexivity.
Qed.

Lemma count_calls_app (p : ApiCall -> bool) (t1 t2 : list Event) :
  count_calls p (t1 ++ t2) = count_calls p t1 + count_calls p t2.
Proof.
  unfold count_calls.
  rewrite api_calls_app, filter_app, length_app; reflexivity.
Qed.

Lemma bind_step {A B} (m : M A) (f : A -> M B) (n : nat) :
  bind m f n =
  match m n with
  | (Ok a, n', t) => with_prefix t (f a n')
  | (Raise e, n', t) => (Raise e, n', t)
  end.
Proof.
  unfold bind, with_prefix, result, calls_after, trace.
  destruct (m n) as [[[a | e] n'] t]; [| reflexivity].
  destruct (f a n') as [[r n''] t']; reflexivity.
Qed.

Lemma ret_bind {A B} (a : A) (f : A -> M B) (n : nat) :
  bind (ret a) f n = f a n.
Proof.
  unfold bind, ret. destruct (f a n) as [[r n'] t]. reflexivity.
Qed.

Lemma lift_bind {A B} (r : res A) (f : A -> M B) (n : nat) :
  bind (lift r) f n =
  match r with
  | Ok a => f a n
  | Raise e => (Raise e, n, [])
  end.
Proof.
  destruct r as [a | e]; [apply ret_bind | reflexivity].
Qed.

Lemma bind_ret_tt (m : M unit) (n : nat) : bind m (fun _ => ret tt) n = m n.
Proof.
  unfold bind, ret. destruct (m n) as [[[[] | e] n'] t]; [| reflexivity].
  rewrite app_nil_r. reflexivity.
Qed.

Lemma bind_ret_id {A} (m : M A) (n : nat) : bind m (fun x => ret x) n = m n.
Proof.
  unfold bind, ret. destruct (m n) as [[[a | e] n'] t]; [| reflexivity].
  rewrite app_nil_r. reflexivity.
Qed.

(** One step of a run: the first computation is rewritten by [lem], its
    outcome decides how the run goes on. *)
Lemma with_prefix_nil {A} (x : res A * nat * list Event) :
  with_prefix [] x = x.
Proof. destruct x as [[r n] t]. reflexivity. Qed.

Ltac step lem := rewrite bind_step, lem; cbv iota zeta.

Ltac finish_run :=
  unfold with_prefix, result, calls_after, trace; cbn [fst snd app].

Lemma bind_discard {A} (m : M A) (n : nat) :
  bind m (fun _ => ret tt) n =
  (res_map (fun _ => tt) (result (m n)), calls_after (m n), trace (m n)).
Proof.
  unfold bind, ret, result, calls_after, trace.
  destruct (m n) as [[[a | e] n'] t]; cbn; [| reflexivity].
  rewrite app_nil_r. reflexivity.
Qed.

Lemma sleep_run (seconds n : nat) :
  sleep seconds n = (Ok tt, n, [ESleep seconds]).
Proof. reflexivity. Qed.

(** ** [get_cluster_status] *)

Lemma get_cluster_status_run (w : World) (cid : string) (n : nat) :
  get_cluster_status w cid n =
  (observed w cid n, S n,
   [EPrint (status_banner cid); ECall (describe_clusters cid)]).
Proof.
  unfold observed, result, get_cluster_status, try_except_cls, try_except,
    bind, lift, print, emit, ret, raise, redshift_describe_clusters.
  cbn.
  destruct (describe_clusters_resp w n) as [r | e]; cbn.
  - destruct (Clusters r) as [| c cs]; cbn; reflexivity.
  - destruct (exn_class_eqb (exn_cls e) ClusterNotFoundFault); reflexivity.
Qed.

(** ** The polling loop *)

Section Polling.

Variable w : World.
Variables target cid : string.

(** One more turn of the loop, when the call gives a status. *)
Lemma poll_loop_step (i : nat) (status0 s : string) (n : nat) :
  observed w cid n = Ok s ->
  poll_loop w target cid (S i) status0 n =
  if String.eqb s target
  then (Ok s, S n,
        [EPrint (status_banner cid); ECall (describe_clusters cid)])
  else
    (result (poll_loop w target cid i s (S n)),
     calls_after (poll_loop w target cid i s (S n)),
     [EPrint (status_banner cid); ECall (describe_clusters cid);
      ESleep 10; EPrint s] ++ trace (poll_loop w target cid i s (S n)))%list.
Proof.
  intros Hs. cbn [poll_loop].
  rewrite bind_run, get_cluster_status_run, Hs.
  destruct (String.eqb s target); [reflexivity |].
  unfold sleep, print, emit. rewrite !bind_run.
  unfold result, calls_after, trace. cbn [fst snd app]. reflexivity.
Qed.

(** The loop from the counter [i]: it returns, after [k] calls, none of
    which but the last gave the target, and it ends before the counter
    is used up only on the target. *)
Lemma poll_loop_run (i : nat) : forall (status0 : string) (n0 : nat),
  (forall k, k < i -> exists s, observed w cid (n0 + k) = Ok s) ->
  exists k s t,
    poll_loop w target cid i status0 n0 = (Ok s, n0 + k, t) /\
    describe_calls t = k /\
    k <= i /\
    (forall j, S j < k -> observed w cid (n0 + j) <> Ok target) /\
    (k < i -> exists j, k = S j /\ observed w cid (n0 + j) = Ok target) /\
    (k = i -> forall j, j < k -> observed w cid (n0 + j) = Ok target ->
               S j = k).
Proof.
  induction i as [| i IH]; intros status0 n0 Hscript.
  - exists 0, status0, []. cbn. unfold ret.
    rewrite Nat.add_0_r. repeat split; try lia; reflexivity.
  - destruct (Hscript 0 ltac:(lia)) as [s Hs].
    rewrite Nat.add_0_r in Hs.
    rewrite (poll_loop_step i status0 s n0 Hs).
    destruct (String.eqb s target) eqn:Heq.
    + apply String.eqb_eq in Heq. subst s.
      exists 1, target,
        [EPrint (status_banner cid); ECall (describe_clusters cid)].
      replace (n0 + 1) with (S n0) by lia.
      split; [reflexivity |]. split; [reflexivity |]. split; [lia |].
      split; [intros j Hj; lia |]. split.
      * intros _. exists 0. rewrite Nat.add_0_r. auto.
      * intros _ j Hj _. lia.
    + apply String.eqb_neq in Heq.
      destruct (IH s (S n0)) as (k & s' & t & Hrun & Hcalls & Hle & Hbefore
                                 & Hearly & Hfull).
      { intros k Hk. replace (S n0 + k) with (n0 + S k) by lia.
        apply Hscript. lia. }
      exists (S k), s',
        ([EPrint (status_banner cid); ECall (describe_clusters cid);
          ESleep 10; EPrint s] ++ t)%list.
      rewrite Hrun. unfold result, calls_after, trace. cbn [fst snd].
      replace (n0 + S k) with (S n0 + k) by lia.
      split; [reflexivity |]. split; [| split; [| split; [| split]]].
      * unfold describe_calls in *. rewrite count_calls_app, Hcalls.
        reflexivity.
      * lia.
      * intros [| j] Hj.
        -- rewrite Nat.add_0_r, Hs. congruence.
        -- replace (n0 + S j) with (S n0 + j) by lia.
           apply Hbefore. lia.
      * intros Hk. destruct Hearly as (j & Hj & Htarget); [lia |].
        exists (S j). split; [lia |].
        replace (n0 + S j) with (S n0 + j) by lia. exact Htarget.
      * intros Hk [| j] Hj Htarget.
        -- rewrite Nat.add_0_r, Hs in Htarget. congruence.
        -- replace (n0 + S j) with (S n0 + j) in Htarget by lia.
           f_equal. apply Hfull; [lia | lia | exact Htarget].
Qed.

End Polling.

(** The loop with the budget of 10, over any scripted sequence of
    statuses: it returns normally after [k <= 10] describe-status calls,
    where [k] is the position of the first call that gave the target
    status if one of the first 10 did, and 10 otherwise. *)
Lemma poll_loop_stops_at_target_or_budget
    (w : World) (target cid status0 : string) (n0 : nat) :
  (forall k, k < 10 -> exists s, observed w cid (n0 + k) = Ok s) ->
  exists k s t,
    poll_loop w target cid 10 status0 n0 = (Ok s, n0 + k, t) /\
    describe_calls t = k /\
    k <= 10 /\
    (forall j, j < 10 ->
       observed w cid (n0 + j) = Ok target ->
       (forall j', j' < j -> observed w cid (n0 + j') <> Ok target) ->
       k = S j) /\
    ((forall j, j < 10 -> observed w cid (n0 + j) <> Ok target) -> k = 10).
Proof.
  intros Hscript.
  destruct (poll_loop_run w target cid 10 status0 n0 Hscript)
    as (k & s & t & Hrun & Hcalls & Hle & Hbefore & Hearly & Hfull).
  exists k, s, t.
  split; [exact Hrun |]. split; [exact Hcalls |]. split; [exact Hle |].
  split.
  - intros j Hj Htarget Hfirst.
    destruct (Nat.eq_dec k 10) as [Hk | Hk].
    + destruct (Nat.lt_ge_cases (S j) k) as [Hlt | Hge].
      * exfalso. exact (Hbefore j Hlt Htarget).
      * symmetry. apply Hfull; [exact Hk | lia | exact Htarget].
    + destruct Hearly as (j0 & Hj0 & Htarget0); [lia |].
      destruct (Nat.lt_trichotomy j0 j) as [Hlt | [Heq | Hgt]].
      * exfalso. exact (Hfirst j0 Hlt Htarget0).
      * lia.
      * exfalso. apply (Hbefore j); [lia | exact Htarget].
  - intros Hnone.
    destruct (Nat.eq_dec k 10) as [Hk | Hk]; [exact Hk |].
    destruct Hearly as (j0 & Hj0 & Htarget0); [lia |].
    exfalso. apply (Hnone j0); [lia | exact Htarget0].
Qed.

(** ** The helpers, run *)

Ltac run_monad :=
  unfold try_except_cls, try_except, bind, lift, print, sleep, emit, ret,
    raise, iam_create_role, iam_attach_role_policy, iam_delete_role,
    iam_get_role, redshift_describe_clusters, redshift_create_cluster,
    redshift_delete_cluster;
  cbn.

Lemma get_iam_role_run (w : World) (nm : string) (n : nat) :
  get_iam_role w nm n =
  match get_role_resp w with
  | Ok r =>
      (Ok (Some (get_Role r)), n,
       [EPrint ("Get the IAM Role: " ++ nm ++ ""); ECall (get_role nm)])
  | Raise e =>
      (Ok None, n,
       [EPrint ("Get the IAM Role: " ++ nm ++ ""); ECall (get_role nm);
        EPrint (str e)])
  end.
Proof.
  unfold get_iam_role. run_monad.
  destruct (get_role_resp w); reflexivity.
Qed.

Lemma create_iam_role_run (w : World) (nm : string) (n : nat) :
  create_iam_role w nm n =
  let asked :=
    [EPrint ("Creating a new IAM Role: " ++ nm ++ "");
     ECall (create_role "/" nm role_description
              assume_role_policy_document)] in
  let attaching :=
    [EPrint "Attaching Policy";
     ECall (attach_role_policy nm
              "arn:aws:iam::aws:policy/AmazonS3ReadOnlyAccess")] in
  match create_role_resp w with
  | Ok r =>
      match attach_role_policy_resp w with
      | Ok _ => (Ok (Some (create_Role r)), n, asked ++ attaching)
      | Raise e => (Ok None, n, asked ++ attaching ++ [EPrint (str e)])
      end
  | Raise e => (Ok None, n, asked ++ [EPrint (str e)])
  end%list.
Proof.
  unfold create_iam_role. run_monad.
  destruct (create_role_resp w); [| reflexivity].
  destruct (attach_role_policy_resp w); reflexivity.
Qed.

Lemma delete_iam_role_run (w : World) (nm : string) (n : nat) :
  delete_iam_role w nm n =
  (Ok tt, n,
   [EPrint ("Deleting the IAM Role: " ++ nm ++ ""); ECall (delete_role nm)]
   ++ match delete_role_resp w with
      | Ok _ => []
      | Raise e => [EPrint (str e)]
      end)%list.
Proof.
  unfold delete_iam_role. run_monad.
  destruct (delete_role_resp w); reflexivity.
Qed.

Lemma delete_redshift_cluster_run (w : World) (cid : string) (n : nat) :
  delete_redshift_cluster w cid n =
  (Ok tt, n,
   [EPrint ("Delete Redshift cluster: " ++ cid ++ "");
    ECall (delete_cluster cid true)]
   ++ match delete_cluster_resp w with
      | Ok _ => []
      | Raise e => [EPrint (str e)]
      end)%list.
Proof.
  unfold delete_redshift_cluster. run_monad.
  destruct (delete_cluster_resp w); reflexivity.
Qed.

Lemma create_redshift_cluster_run (int : string -> res Z) (w : World)
    (arn ct nt nn db cid user pw : string) (n : nat) :
  create_redshift_cluster int w arn ct nt nn db cid user pw n =
  let banner := EPrint ("Create Redshift cluster: " ++ cid ++ "") in
  let call hw :=
    ECall (create_cluster
             (hw ++ identifiers_and_roles db cid user pw arn)%list) in
  let answered hw :=
    match create_cluster_resp w with
    | Ok r => (Ok (Some r), n, [banner; call hw])
    | Raise e => (Ok None, n, [banner; call hw; EPrint (str e)])
    end in
  if String.eqb nt "multi-node"
  then
    match int nn with
    | Ok z =>
        answered [("ClusterType", VStr ct); ("NumberOfNodes", VInt z);
                  ("NodeType", VStr nt)]
    | Raise e => (Ok None, n, [banner; EPrint (str e)])
    end
  else answered [("ClusterType", VStr ct); ("NodeType", VStr nt)].
Proof.
  unfold create_redshift_cluster, identifiers_and_roles. run_monad.
  destruct (String.eqb nt "multi-node"); cbn.
  - destruct (int nn); cbn; [| reflexivity].
    destruct (create_cluster_resp w); reflexivity.
  - destruct (create_cluster_resp w); reflexivity.
Qed.

(** ** Masked failures *)

(** C7. Whenever the external API raises an exception [e] inside one of
    the five helpers ([create_iam_role], [get_iam_role],
    [delete_iam_role], [create_redshift_cluster],
    [delete_redshift_cluster]), the helper returns normally, its value is
    [None], and the last thing it did was to print [e]. *)
Theorem helpers_mask_api_failures (int : string -> res Z) (w : World)
    (h : helper_call) (e : exn) (n : nat) :
  api_raises int w h e ->
  exists t, run_helper int w h n = (Ok true, n, (t ++ [EPrint (str e)])%list).
Proof.
  destruct h as [nm | nm | nm | arn ct nt nn db cid user pw | cid];
    cbn [api_raises run_helper]; intros H; rewrite bind_run.
  - rewrite create_iam_role_run. cbv zeta.
    destruct H as [H | [[r Hr] H]].
    + rewrite H. eexists. unfold ret, result, calls_after, trace.
      cbn [fst snd is_None]. rewrite app_nil_r. reflexivity.
    + rewrite Hr, H. eexists. unfold ret, result, calls_after, trace.
      cbn [fst snd is_None]. rewrite app_nil_r, app_assoc. reflexivity.
  - rewrite get_iam_role_run, H.
    exists [EPrint ("Get the IAM Role: " ++ nm ++ ""); ECall (get_role nm)].
    reflexivity.
  - rewrite delete_iam_role_run, H.
    exists [EPrint ("Deleting the IAM Role: " ++ nm ++ "");
            ECall (delete_role nm)].
    reflexivity.
  - rewrite create_redshift_cluster_run. cbv zeta.
    destruct H as [Hint H]. rewrite H.
    destruct (String.eqb nt "multi-node") eqn:Hnt.
    + apply String.eqb_eq in Hnt. destruct (Hint Hnt) as [z Hz].
      rewrite Hz. eexists [_; _]. reflexivity.
    + eexists [_; _]. reflexivity.
  - rewrite delete_redshift_cluster_run, H.
    exists [EPrint ("Delete Redshift cluster: " ++ cid ++ "");
            ECall (delete_cluster cid true)].
    reflexivity.
Qed.

Lemma helpers_mask_api_failures_witness :
  exists t,
    run_helper Sample.int Sample.denied
      (call_create_redshift_cluster (Arn Sample.role) "multi-node"
         "multi-node" "4" "dwh" "dwhCluster" "dwhuser" "Passw0rd") 0
    = (Ok true, 0, (t ++ [EPrint (str Sample.access_denied)])%list).
Proof.
  apply (helpers_mask_api_failures Sample.int Sample.denied
           (call_create_redshift_cluster (Arn Sample.role) "multi-node"
              "multi-node" "4" "dwh" "dwhCluster" "dwhuser" "Passw0rd")
           Sample.access_denied 0).
  cbn. split; [| reflexivity].
  intros _. exists 4%Z. reflexivity.
Defined.

(** ** The hardware parameters of [create_cluster] *)

(** C10. Whenever [create_redshift_cluster] issues its [create_cluster]
    call, the call carries a [NumberOfNodes] parameter if and only if the
    value of [DWH_NODE_TYPE] is the string ['multi-node']; two runs that
    differ in [DWH_CLUSTER_TYPE] only agree on whether the parameter is
    sent. *)
Theorem number_of_nodes_follows_node_type (int : string -> res Z)
    (w : World) (arn ct ct' nt nn db cid user pw : string) (n n' : nat)
    (kw kw' : kwargs) :
  In (ECall (create_cluster kw))
    (trace (create_redshift_cluster int w arn ct nt nn db cid user pw n)) ->
  In (ECall (create_cluster kw'))
    (trace (create_redshift_cluster int w arn ct' nt nn db cid user pw n')) ->
  (has_key "NumberOfNodes" kw = true <-> nt = "multi-node") /\
  has_key "NumberOfNodes" kw' = has_key "NumberOfNodes" kw.
Proof.
  rewrite !create_redshift_cluster_run. cbv zeta.
  destruct (String.eqb nt "multi-node") eqn:Hnt.
  - apply String.eqb_eq in Hnt.
    destruct (int nn) as [z | e]; unfold trace;
      destruct (create_cluster_resp w); cbn [snd In];
      intros H H'; intuition (try discriminate);
      repeat match goal with
             | Heq : ECall _ = ECall _ |- _ => injection Heq as <-
             end; reflexivity.
  - apply String.eqb_neq in Hnt.
    unfold trace; destruct (create_cluster_resp w); cbn [snd In];
      intros H H'; intuition (try discriminate);
      repeat match goal with
             | Heq : ECall _ = ECall _ |- _ => injection Heq as <-
             end; try reflexivity;
      match goal with
      | Hk : has_key _ _ = true |- _ => cbn in Hk; discriminate
      end.
Qed.

Lemma number_of_nodes_follows_node_type_witness :
  has_key "NumberOfNodes"
    [("ClusterType", VStr "single-node"); ("NumberOfNodes", VInt 4);
     ("NodeType", VStr "multi-node"); ("DBName", VStr "dwh");
     ("ClusterIdentifier", VStr "dwhCluster");
     ("MasterUsername", VStr "dwhuser");
     ("MasterUserPassword", VStr "Passw0rd");
     ("IamRoles", VList [Arn Sample.role])] = true
  <-> "multi-node" = "multi-node".
Proof.
  refine (proj1 (number_of_nodes_follows_node_type Sample.int Sample.fresh
                   (Arn Sample.role) "single-node" "multi-node" "multi-node"
                   "4" "dwh" "dwhCluster" "dwhuser" "Passw0rd" 0 0 _ _ _ _)).
  - cbn. right. left. reflexivity.
  - cbn. right. left. reflexivity.
Defined.

(** ** The absent marker *)

(** [get_cluster_status] by the answer of the call: it hands on the
    status the API reports for an existing cluster as it is, answers
    ['unknown'] to a [ClusterNotFoundFault], and lets any other exception
    of the call through. *)
Lemma get_cluster_status_by_answer (w : World) (cid : string)
    (n : nat) :
  (observed w cid n = Ok "unknown" <->
   (exists e, describe_clusters_resp w n = Raise e /\
              exn_cls e = ClusterNotFoundFault) \/
   (exists r c cs, describe_clusters_resp w n = Ok r /\
                   Clusters r = c :: cs /\ ClusterStatus c = "unknown")) /\
  (forall r c cs, describe_clusters_resp w n = Ok r ->
                  Clusters r = c :: cs ->
                  observed w cid n = Ok (ClusterStatus c)) /\
  (forall e, describe_clusters_resp w n = Raise e ->
             exn_cls e <> ClusterNotFoundFault ->
             observed w cid n = Raise e).
Proof.
  unfold observed, result, get_cluster_status. run_monad.
  destruct (describe_clusters_resp w n) as [r | e]; cbn.
  - split; [| split].
    + destruct (Clusters r) as [| c cs] eqn:Hr; cbn; split.
      * discriminate.
      * intros [(e & He & _) | (r' & c & cs & Hr' & Hcs & _)];
          [discriminate |].
        injection Hr' as <-. congruence.
      * intros H. injection H as H. right. exists r, c, cs. auto.
      * intros [(e & He & _) | (r' & c' & cs' & Hr' & Hcs & Hst)];
          [discriminate |].
        injection Hr' as <-. rewrite Hr in Hcs. injection Hcs as <- _.
        rewrite Hst. reflexivity.
    + intros r' c cs Hr' Hcs. injection Hr' as <-. rewrite Hcs. reflexivity.
    + intros e He. discriminate.
  - split; [| split].
    + destruct (exn_class_eqb (exn_cls e) ClusterNotFoundFault) eqn:Hcls;
        cbn; split.
      * intros _. left. exists e. split; [reflexivity |].
        destruct (exn_cls e); cbn in Hcls; congruence.
      * reflexivity.
      * discriminate.
      * intros [(e' & He' & Hcls') | (r & c & cs & Hr & _)];
          [| discriminate].
        injection He' as <-. rewrite Hcls' in Hcls. discriminate.
    + intros r c cs Hr. discriminate.
    + intros e' He' Hcls. injection He' as <-.
      destruct (exn_cls e); cbn; congruence.
Qed.

(** C4. Over the statuses the API reports for clusters, none of which
    reads ['unknown'], [get_cluster_status] returns ['unknown'] exactly
    when the describe-cluster call reports the cluster as not found; for
    an existing cluster it returns the reported status, which is never
    the absent marker; and any failure of the call other than not-found
    propagates as the exception it is. *)
Theorem get_cluster_status_unknown_iff_not_found (w : World) (cid : string)
    (n : nat) :
  reports_real_status w n ->
  (observed w cid n = Ok "unknown" <->
   exists e, describe_clusters_resp w n = Raise e /\
             exn_cls e = ClusterNotFoundFault) /\
  (forall r c cs, describe_clusters_resp w n = Ok r ->
                  Clusters r = c :: cs ->
                  observed w cid n = Ok (ClusterStatus c) /\
                  observed w cid n <> Ok "unknown") /\
  (forall e, describe_clusters_resp w n = Raise e ->
             exn_cls e <> ClusterNotFoundFault ->
             observed w cid n = Raise e).
Proof.
  intros Hreal.
  destruct (get_cluster_status_by_answer w cid n) as (Hiff & Hexists & Hfail).
  split; [| split].
  - rewrite Hiff. split.
    + intros [H | (r & c & cs & Hr & Hcs & Hst)]; [exact H |].
      exfalso. exact (Hreal r c cs Hr Hcs Hst).
    + intros H. left. exact H.
  - intros r c cs Hr Hcs. split; [exact (Hexists r c cs Hr Hcs) |].
    rewrite (Hexists r c cs Hr Hcs). intros H. injection H as H.
    exact (Hreal r c cs Hr Hcs H).
  - exact Hfail.
Qed.

Lemma get_cluster_status_unknown_iff_not_found_witness :
  observed Sample.running "dwhCluster" 0 = Ok "unknown" <->
  exists e, describe_clusters_resp Sample.running 0 = Raise e /\
            exn_cls e = ClusterNotFoundFault.
Proof.
  apply (get_cluster_status_unknown_iff_not_found Sample.running
           "dwhCluster" 0).
  intros r c cs Hr Hcs. injection Hr as <-. injection Hcs as <- _.
  discriminate.
Defined.

(** ** The SQL catalog *)

Lemma staging_events_copy_run (config : SqlQueries.SqlConfig) :
  SqlQueries.staging_events_copy config =
  Ok ("
    copy staging_events
    from " ++ SqlQueries.LOG_DATA config ++ "
    iam_role " ++ SqlQueries.ARN config ++ "
    format as json " ++ SqlQueries.LOG_JSONPATH config ++ "
").
Proof. reflexivity. Qed.

Lemma staging_songs_copy_run (config : SqlQueries.SqlConfig) :
  SqlQueries.staging_songs_copy config =
  Ok ("
    copy staging_songs
    from " ++ SqlQueries.SONG_DATA config ++ "
    iam_role " ++ SqlQueries.ARN config ++ "
    json 'auto'
").
Proof. reflexivity. Qed.

Lemma append_assoc (a b c : string) : (a ++ b) ++ c = a ++ b ++ c.
Proof.
  induction a as [| x a IH]; cbn; [reflexivity | rewrite IH; reflexivity].
Qed.

Lemma occurs_in_middle (before needle after : string) :
  occurs_in needle (before ++ needle ++ after).
Proof. exists before, after. reflexivity. Qed.

Lemma occurs_in_later (before needle rest : string) :
  occurs_in needle rest -> occurs_in needle (before ++ rest).
Proof.
  intros (b & a & ->). exists (before ++ b), a.
  rewrite append_assoc. reflexivity.
Qed.

Lemma occurs_in_front (needle after : string) :
  occurs_in needle (needle ++ after).
Proof. exists EmptyString, after. reflexivity. Qed.

Ltac find_occurrence :=
  solve
    [ apply occurs_in_middle
    | apply occurs_in_front
    | match goal with
      | |- occurs_in _ (?before ++ ?rest) =>
          apply (occurs_in_later before); find_occurrence
      end ].

(** C6. Whatever the configured values of [LOG_DATA], [SONG_DATA],
    [LOG_JSONPATH] and the role ARN are, the catalog loads; its COPY list
    is the two COPY statements, each of which contains the configured
    values it is made from, as they are; and the drop, create and insert
    lists are the same for every configuration. *)
Theorem copy_statements_carry_configuration
    (config : SqlQueries.SqlConfig) :
  exists catalog events_copy songs_copy,
    SqlQueries.load config = Ok catalog /\
    SqlQueries.copy_table_queries catalog = [events_copy; songs_copy] /\
    SqlQueries.staging_events_copy config = Ok events_copy /\
    SqlQueries.staging_songs_copy config = Ok songs_copy /\
    occurs_in (SqlQueries.LOG_DATA config) events_copy /\
    occurs_in (SqlQueries.ARN config) events_copy /\
    occurs_in (SqlQueries.LOG_JSONPATH config) events_copy /\
    occurs_in (SqlQueries.SONG_DATA config) songs_copy /\
    occurs_in (SqlQueries.ARN config) songs_copy /\
    forall config' : SqlQueries.SqlConfig,
    exists catalog',
      SqlQueries.load config' = Ok catalog' /\
      SqlQueries.drop_table_queries catalog'
      = SqlQueries.drop_table_queries catalog /\
      SqlQueries.create_table_queries catalog'
      = SqlQueries.create_table_queries catalog /\
      SqlQueries.insert_table_queries catalog'
      = SqlQueries.insert_table_queries catalog.
Proof.
  unfold SqlQueries.load.
  rewrite staging_events_copy_run, staging_songs_copy_run.
  cbn [res_bind].
  eexists; eexists; eexists.
  split; [reflexivity |]. split; [reflexivity |].
  split; [reflexivity |]. split; [reflexivity |].
  do 5 (split; [find_occurrence |]).
  intros config'.
  rewrite staging_events_copy_run, staging_songs_copy_run.
  cbn [res_bind].
  eexists. split; [reflexivity |].
  cbn. auto.
Qed.

(** ** The mutually exclusive options *)

Lemma mem_In (x : string) (xs : list string) : mem x xs = true <-> In x xs.
Proof.
  unfold mem. rewrite existsb_exists. split.
  - intros (y & Hy & Heq). apply String.eqb_eq in Heq. subst. exact Hy.
  - intros H. exists x. split; [exact H | apply String.eqb_refl].
Qed.

Lemma first_occurrences_sound (names seen : list string) (x : string) :
  In x (first_occurrences seen names) -> In x names.
Proof.
  revert seen. induction names as [| y names IH]; intros seen; cbn.
  - auto.
  - destruct (mem y seen).
    + intros H. right. exact (IH _ H).
    + intros [H | H]; [left; exact H | right; exact (IH _ H)].
Qed.

Lemma first_occurrences_complete (names seen : list string) (x : string) :
  In x names -> mem x seen = false -> In x (first_occurrences seen names).
Proof.
  revert seen. induction names as [| y names IH]; intros seen; cbn.
  - auto.
  - intros Hin Hseen. destruct (mem y seen) eqn:Hy.
    + destruct Hin as [-> | Hin]; [congruence |].
      apply IH; assumption.
    + destruct (String.eqb x y) eqn:Hxy.
      * apply String.eqb_eq in Hxy. left. auto.
      * destruct Hin as [-> | Hin].
        -- rewrite String.eqb_refl in Hxy. discriminate.
        -- right. apply IH; [exact Hin |].
           unfold mem in *. cbn. rewrite Hxy. exact Hseen.
Qed.

(** With two different flags on the command line, every flag that is on
    the command line refuses the parse result. *)
Lemma handle_parse_result_refuses (opts : list string) (a b : string)
    (p : MutuallyExclusiveOption) :
  In a flags -> In b flags -> a <> b -> In a opts -> In b opts ->
  In p params -> In (name p) opts ->
  exists msg, handle_parse_result p opts = Raise (Exn UsageError msg).
Proof.
  intros Ha Hb Hab Hao Hbo Hp Hpo.
  apply mem_In in Hao, Hbo, Hpo.
  unfold flags, params in *. cbn [In] in Ha, Hb, Hp.
  unfold handle_parse_result, intersection.
  rewrite Hpo, andb_true_r.
  destruct Hp as [<- | [<- | [<- | []]]];
    destruct Ha as [<- | [<- | [<- | []]]];
    destruct Hb as [<- | [<- | [<- | []]]];
    try congruence;
    cbn in *; rewrite ?Hao, ?Hbo;
    try (destruct (mem "create" opts));
    try (destruct (mem "delete" opts));
    try (destruct (mem "status" opts));
    try discriminate; cbn; eexists; reflexivity.
Qed.

(** *** The order of processing *)

Lemma in_invocation_order_all (opts : list string) (ps : list Param)
    (p : Param) :
  In p (in_invocation_order opts ps) <-> In p ps.
Proof.
  unfold in_invocation_order. rewrite in_app_iff, in_flat_map.
  split.
  - intros [(x & _ & Hp) | Hp]; apply filter_In in Hp; tauto.
  - intros Hp. destruct (mem (param_name p) opts) eqn:Hgiven.
    + left. exists (param_name p). split.
      * apply first_occurrences_complete;
          [apply mem_In; exact Hgiven | reflexivity].
      * apply filter_In. split; [exact Hp | apply String.eqb_refl].
    + right. apply filter_In. rewrite Hgiven. auto.
Qed.

(** click processes every parameter of the command, and nothing else. *)
Lemma iter_params_for_processing_all (opts : list string) (ps : list Param)
    (p : Param) :
  In p (iter_params_for_processing opts ps) <-> In p ps.
Proof.
  unfold iter_params_for_processing.
  rewrite in_app_iff, !in_invocation_order_all, !filter_In.
  destruct (is_eager p); cbn; intuition discriminate.
Qed.

(** The help option is eager: it is processed before any other
    parameter, wherever it stands on the command line. *)
Lemma help_is_processed_first (opts : list string) :
  exists rest,
    iter_params_for_processing opts get_params = HelpOption :: rest.
Proof.
  unfold iter_params_for_processing.
  change (filter is_eager get_params) with [HelpOption].
  destruct (in_invocation_order opts [HelpOption]) as [| p l] eqn:Horder.
  - assert (H : In HelpOption (in_invocation_order opts [HelpOption]))
      by (apply in_invocation_order_all; left; reflexivity).
    rewrite Horder in H. destruct H.
  - assert (H : In p (in_invocation_order opts [HelpOption]))
      by (rewrite Horder; left; reflexivity).
    apply in_invocation_order_all in H. destruct H as [<- | []].
    eexists. reflexivity.
Qed.

Lemma flat_map_nil {A B} (f : A -> list B) (l : list A) :
  (forall x, In x l -> f x = []) -> flat_map f l = [].
Proof.
  induction l as [| x l IH]; intros H; cbn; [reflexivity |].
  rewrite (H x (or_introl eq_refl)), IH; [reflexivity |].
  intros y Hy. apply H. right. exact Hy.
Qed.

(** Without [--help] on the command line: the help option, then the
    declared options by their place on the command line. *)
Lemma processing_order_without_help (opts : list string) :
  mem "help" opts = false ->
  iter_params_for_processing opts get_params
  = HelpOption :: in_invocation_order opts (map Declared params).
Proof.
  intros Hhelp. unfold iter_params_for_processing.
  change (filter is_eager get_params) with [HelpOption].
  change (filter (fun p => negb (is_eager p)) get_params)
    with (map Declared params).
  unfold in_invocation_order at 1. rewrite flat_map_nil.
  - cbn [filter param_name]. rewrite Hhelp. reflexivity.
  - intros x Hx. cbn [filter param_name].
    destruct (String.eqb "help" x) eqn:Heq; [| reflexivity].
    apply String.eqb_eq in Heq. subst x.
    apply first_occurrences_sound, mem_In in Hx. congruence.
Qed.

(** The first declared option click processes is one given on the
    command line, as soon as a flag is given. *)
Lemma first_processed_is_given (opts : list string) (a : string) :
  In a flags -> In a opts ->
  exists o rest,
    in_invocation_order opts (map Declared params) = Declared o :: rest /\
    In o params /\ In (name o) opts.
Proof.
  intros Ha Hao. unfold in_invocation_order.
  set (given := flat_map
                  (fun x => filter (fun p => String.eqb (param_name p) x)
                              (map Declared params))
                  (first_occurrences [] opts)).
  assert (Hgiven : forall p, In p given ->
            exists o, p = Declared o /\ In o params /\ In (name o) opts).
  { intros p Hp. apply in_flat_map in Hp. destruct Hp as (x & Hx & Hp).
    apply filter_In in Hp. destruct Hp as [Hp Hname].
    apply in_map_iff in Hp. destruct Hp as (o & <- & Ho).
    apply String.eqb_eq in Hname. cbn in Hname. subst x.
    exists o. split; [reflexivity |].
    split; [exact Ho | exact (first_occurrences_sound _ _ _ Hx)]. }
  assert (Hne : exists p, In p given).
  { assert (Ho : exists o, In o params /\ name o = a).
    { unfold flags in Ha. cbn [In] in Ha.
      destruct Ha as [<- | [<- | [<- | []]]];
        [exists option_create | exists option_delete | exists option_status];
        cbn; auto. }
    destruct Ho as (o & Ho & Hname). exists (Declared o).
    apply in_flat_map. exists a. split.
    - apply first_occurrences_complete; [exact Hao | reflexivity].
    - apply filter_In. split; [apply in_map; exact Ho |].
      cbn. rewrite Hname. apply String.eqb_refl. }
  destruct given as [| p rest].
  - destruct Hne as [p []].
  - destruct (Hgiven p (or_introl eq_refl)) as (o & -> & Ho & Hname).
    eexists. eexists. split; [reflexivity |]. auto.
Qed.

(** *** The processing *)

Lemma process_params_help_given (page : string) (opts : list string)
    (rest : list Param) (n : nat) :
  mem "help" opts = true ->
  process_params page opts (HelpOption :: rest) n
  = (Raise (Exn Exit "0"), n, [EPrint page]).
Proof.
  intros Hhelp. cbn [process_params process_param]. rewrite Hhelp.
  reflexivity.
Qed.

Lemma process_params_help_not_given (page : string) (opts : list string)
    (rest : list Param) (n : nat) :
  mem "help" opts = false ->
  process_params page opts (HelpOption :: rest) n
  = process_params page opts rest n.
Proof.
  intros Hhelp. cbn [process_params process_param]. rewrite Hhelp.
  unfold show_help. rewrite bind_step, ret_bind. unfold ret at 1. cbv iota.
  cbn [app]. rewrite bind_ret_id. apply with_prefix_nil.
Qed.

Lemma process_params_refused (page : string) (opts : list string)
    (o : MutuallyExclusiveOption) (rest : list Param) (e : exn) (n : nat) :
  handle_parse_result o opts = Raise e ->
  process_params page opts (Declared o :: rest) n = (Raise e, n, []).
Proof.
  intros H. cbn [process_params process_param].
  rewrite bind_step, lift_bind, H. reflexivity.
Qed.

(** What the accepted parameters [ps] put into the context. *)
Lemma process_params_accepted (page : string) (opts : list string)
    (ps : list Param) (n : nat) :
  (forall p, In p ps ->
     exists o, p = Declared o /\
               handle_parse_result o opts = Ok (mem (name o) opts)) ->
  process_params page opts ps n
  = (Ok (flat_map
           (fun p => match p with
                     | Declared o => [(name o, mem (name o) opts)]
                     | HelpOption => []
                     end) ps), n, []).
Proof.
  induction ps as [| p ps IH]; intros H; [reflexivity |].
  destruct (H p (or_introl eq_refl)) as (o & -> & Ho).
  cbn [process_params process_param flat_map].
  rewrite bind_step, lift_bind, Ho. unfold ret at 1. cbv iota.
  rewrite bind_step, IH by (intros q Hq; apply H; right; exact Hq).
  reflexivity.
Qed.

Lemma param_value_accepted (opts : list string) (ps : list Param)
    (o : MutuallyExclusiveOption) :
  In (Declared o) ps ->
  param_value (name o)
    (flat_map
       (fun p => match p with
                 | Declared o => [(name o, mem (name o) opts)]
                 | HelpOption => []
                 end) ps)
  = mem (name o) opts.
Proof.
  unfold param_value. induction ps as [| p ps IH]; intros Hin.
  - destruct Hin.
  - cbn [flat_map]. destruct p as [q |].
    + cbn [app find fst].
      destruct (String.eqb (name q) (name o)) eqn:Hq.
      * apply String.eqb_eq in Hq. cbn [snd]. rewrite Hq. reflexivity.
      * destruct Hin as [Heq | Hin].
        -- injection Heq as ->. rewrite String.eqb_refl in Hq.
           discriminate.
        -- exact (IH Hin).
    + cbn [app]. destruct Hin as [Heq | Hin]; [discriminate | exact (IH Hin)].
Qed.

(** *** The command by its command line *)

(** With [--help] on the command line the command echoes the help page
    and exits, whatever else is on the command line. *)
Lemma command_help (int : string -> res Z) (w : World) (page : string)
    (cfg : Config) (opts : list string) (n : nat) :
  In "help" opts ->
  command int w page cfg opts n = (Raise (Exn Exit "0"), n, [EPrint page]).
Proof.
  intros Hhelp. apply mem_In in Hhelp. unfold command.
  destruct (help_is_processed_first opts) as [rest ->].
  rewrite bind_step, process_params_help_given by exact Hhelp.
  reflexivity.
Qed.

(** Without [--help], two different flags end the command in a
    [UsageError] before anything is done. *)
Lemma command_conflict (int : string -> res Z) (w : World) (page : string)
    (cfg : Config) (opts : list string) (a b : string) (n : nat) :
  ~ In "help" opts ->
  In a flags -> In b flags -> a <> b -> In a opts -> In b opts ->
  exists msg,
    command int w page cfg opts n = (Raise (Exn UsageError msg), n, []).
Proof.
  intros Hhelp Ha Hb Hab Hao Hbo.
  assert (Hmem : mem "help" opts = false).
  { destruct (mem "help" opts) eqn:Hm; [| reflexivity].
    apply mem_In in Hm. contradiction. }
  destruct (first_processed_is_given opts a Ha Hao)
    as (o & rest & Horder & Ho & Hgiven).
  destruct (handle_parse_result_refuses opts a b o Ha Hb Hab Hao Hbo Ho
              Hgiven) as [msg Hmsg].
  exists msg. unfold command.
  rewrite (processing_order_without_help opts Hmem), bind_step,
    (process_params_help_not_given page opts _ n Hmem), Horder,
    (process_params_refused page opts o rest _ n Hmsg).
  reflexivity.
Qed.

Lemma handle_parse_result_accepts (opts : list string)
    (p : MutuallyExclusiveOption) :
  at_most_one_flag opts -> In p params ->
  handle_parse_result p opts = Ok (mem (name p) opts).
Proof.
  intros Hone Hp. unfold handle_parse_result, intersection.
  destruct (mem (name p) opts) eqn:Hgiven;
    [| rewrite andb_false_r; reflexivity].
  apply mem_In in Hgiven. rewrite andb_true_r.
  assert (Hother : forall x, In x flags -> x <> name p -> mem x opts = false).
  { intros x Hx Hne. destruct (mem x opts) eqn:Hm; [| reflexivity].
    apply mem_In in Hm. exfalso. apply Hne.
    apply Hone; try assumption.
    unfold params in Hp. cbn [In] in Hp.
    destruct Hp as [<- | [<- | [<- | []]]]; cbn; auto. }
  unfold params in Hp. cbn [In] in Hp.
  destruct Hp as [<- | [<- | [<- | []]]];
    unfold option_create, option_delete, option_status in *;
    cbn [mutually_exclusive name filter] in *;
    rewrite !Hother by (cbn; first [tauto | discriminate]);
    reflexivity.
Qed.

(** Without [--help] and with at most one of the three flags, every
    parameter accepts the parse result and [main] gets the flags given. *)
Lemma command_without_conflict (int : string -> res Z) (w : World)
    (page : string) (cfg : Config) (opts : list string) (n : nat) :
  ~ In "help" opts ->
  at_most_one_flag opts ->
  command int w page cfg opts n
  = main int w cfg (mem "create" opts) (mem "delete" opts)
      (mem "status" opts) n.
Proof.
  intros Hhelp Hone.
  assert (Hmem : mem "help" opts = false).
  { destruct (mem "help" opts) eqn:Hm; [| reflexivity].
    apply mem_In in Hm. contradiction. }
  assert (Hall : forall o, In o params ->
            In (Declared o) (in_invocation_order opts (map Declared params)))
    by (intros o Ho; apply in_invocation_order_all, in_map; exact Ho).
  unfold command.
  rewrite (processing_order_without_help opts Hmem), bind_step,
    (process_params_help_not_given page opts _ n Hmem),
    process_params_accepted.
  - cbv iota. rewrite with_prefix_nil.
    rewrite (param_value_accepted opts _ option_create),
      (param_value_accepted opts _ option_delete),
      (param_value_accepted opts _ option_status);
      try (apply Hall; cbn; tauto).
    reflexivity.
  - intros p Hp. apply in_invocation_order_all, in_map_iff in Hp.
    destruct Hp as (o & <- & Ho). exists o. split; [reflexivity |].
    apply handle_parse_result_accepts; assumption.
Qed.

(** C3, as the code has it.  When two different flags among [--create],
    [--delete] and [--status] are on the command line and [--help] is
    not, the command ends with a [UsageError]; when [--help] is there as
    well, the eager help option comes first, and the command echoes the
    help page and exits with the code 0 instead.  Either way it has made
    no API call by then. *)
Theorem two_flags_end_in_usage_error_or_help (int : string -> res Z)
    (w : World) (page : string) (cfg : Config) (opts : list string)
    (a b : string) (n : nat) :
  In a flags -> In b flags -> a <> b -> In a opts -> In b opts ->
  (~ In "help" opts ->
   exists msg,
     command int w page cfg opts n = (Raise (Exn UsageError msg), n, [])) /\
  (In "help" opts ->
   command int w page cfg opts n
   = (Raise (Exn Exit "0"), n, [EPrint page])).
Proof.
  intros Ha Hb Hab Hao Hbo. split.
  - intros Hhelp.
    exact (command_conflict int w page cfg opts a b n Hhelp Ha Hb Hab Hao
             Hbo).
  - exact (command_help int w page cfg opts n).
Qed.

Lemma two_flags_end_in_usage_error_or_help_witness :
  exists msg,
    command Sample.int Sample.fresh "Usage: redshift_util.py [OPTIONS]"
      Sample.cfg ["status"; "create"] 0
    = (Raise (Exn UsageError msg), 0, []).
Proof.
  refine (proj1 (two_flags_end_in_usage_error_or_help Sample.int
                   Sample.fresh "Usage: redshift_util.py [OPTIONS]"
                   Sample.cfg ["status"; "create"] "create" "status" 0
                   _ _ _ _ _) _).
  - cbn. auto.
  - cbn. auto.
  - discriminate.
  - cbn. auto.
  - cbn. auto.
  - intros [H | [H | []]]; discriminate H.
Defined.

(** C3, as it is stated, fails: with [--create --delete --help] both
    flags of a pair are set, and the command does not end with a usage
    error: it echoes the help page and exits with the code 0. *)
Lemma help_overrides_usage_error :
  ~ (forall (int : string -> res Z) (w : World) (page : string)
            (cfg : Config) (opts : list string) (a b : string) (n : nat),
       In a flags -> In b flags -> a <> b -> In a opts -> In b opts ->
       exists msg,
         result (command int w page cfg opts n)
         = Raise (Exn UsageError msg)).
Proof.
  intros H.
  destruct (H Sample.int Sample.fresh "Usage: redshift_util.py [OPTIONS]"
              Sample.cfg ["create"; "delete"; "help"] "create" "delete" 0)
    as [msg Hmsg]; try (cbn; auto; fail); [discriminate |].
  rewrite command_help in Hmsg by (cbn; auto).
  discriminate Hmsg.
Qed.

(** ** [main], step by step *)

Lemma main_create_only (int : string -> res Z) (w : World) (cfg : Config)
    (n : nat) :
  main int w cfg true false false n =
  (dwhRole <- get_iam_role w (DWH_IAM_ROLE_NAME cfg);;
   dwhRole <- (if py_not dwhRole
               then create_iam_role w (DWH_IAM_ROLE_NAME cfg)
               else ret dwhRole);;
   create_cluster_phase int w cfg dwhRole) n.
Proof.
  unfold main, create_cluster_phase. cbv zeta.
  rewrite ret_bind, bind_ret_tt. reflexivity.
Qed.

Lemma main_delete_only (int : string -> res Z) (w : World) (cfg : Config)
    (n : nat) :
  main int w cfg false true false n =
  (status <- get_cluster_status w (DWH_CLUSTER_IDENTIFIER cfg);;
   if String.eqb status "available"
   then
     delete_redshift_cluster w (DWH_CLUSTER_IDENTIFIER cfg);;
     poll_loop w "unknown" (DWH_CLUSTER_IDENTIFIER cfg) 10 status;;
     ret tt
   else ret tt) n.
Proof.
  unfold main. cbv zeta. rewrite !ret_bind. reflexivity.
Qed.

(** With one flag on the command line, [main] is called with that flag
    set and the other two clear. *)
Lemma command_one_flag (int : string -> res Z) (w : World) (page : string)
    (cfg : Config) (n : nat) :
  command int w page cfg ["create"] n = main int w cfg true false false n /\
  command int w page cfg ["delete"] n = main int w cfg false true false n /\
  command int w page cfg ["status"] n = main int w cfg false false true n.
Proof.
  repeat split;
    (rewrite command_without_conflict;
     [ reflexivity
     | intros [H | []]; discriminate H
     | intros a b _ _ [<- | []] [<- | []]; reflexivity ]).
Qed.

Lemma create_redshift_cluster_returns (int : string -> res Z) (w : World)
    (arn ct nt nn db cid user pw : string) (n : nat) :
  exists r,
    result (create_redshift_cluster int w arn ct nt nn db cid user pw n)
    = Ok r /\
    calls_after (create_redshift_cluster int w arn ct nt nn db cid user pw n)
    = n.
Proof.
  rewrite create_redshift_cluster_run. cbv zeta.
  destruct (String.eqb nt "multi-node"); [destruct (int nn) |];
    try destruct (create_cluster_resp w); eexists; split; reflexivity.
Qed.

(** The status check and what follows it, with a role at hand. *)
Lemma create_cluster_phase_with_role (int : string -> res Z) (w : World)
    (cfg : Config) (role : Role) (n : nat) :
  let cid := DWH_CLUSTER_IDENTIFIER cfg in
  trace (create_cluster_phase int w cfg (Some role) n) =
  (trace (get_cluster_status w cid n)
   ++ match observed w cid n with
      | Ok status =>
          if String.eqb status "unknown"
          then
            trace (create_redshift_cluster int w (Arn role)
                     (DWH_CLUSTER_TYPE cfg) (DWH_NODE_TYPE cfg)
                     (DWH_NUM_NODES cfg) (DWH_DB cfg) cid
                     (DWH_DB_USER cfg) (DWH_DB_PASSWORD cfg) (S n))
            ++ [ESleep 10]
            ++ trace (poll_loop w "available" cid 10 status (S n))
          else []
      | Raise _ => []
      end)%list.
Proof.
  cbv zeta. unfold create_cluster_phase.
  step get_cluster_status_run.
  destruct (observed w (DWH_CLUSTER_IDENTIFIER cfg) n) as [s | e];
    [| reflexivity].
  destruct (String.eqb s "unknown"); [| reflexivity].
  rewrite lift_bind. cbn [subscript_Arn]. rewrite bind_step.
  destruct (create_redshift_cluster_returns int w (Arn role)
              (DWH_CLUSTER_TYPE cfg) (DWH_NODE_TYPE cfg)
              (DWH_NUM_NODES cfg) (DWH_DB cfg)
              (DWH_CLUSTER_IDENTIFIER cfg) (DWH_DB_USER cfg)
              (DWH_DB_PASSWORD cfg) (S n)) as (r & Hr & Hn).
  destruct (create_redshift_cluster int w (Arn role)
              (DWH_CLUSTER_TYPE cfg) (DWH_NODE_TYPE cfg)
              (DWH_NUM_NODES cfg) (DWH_DB cfg)
              (DWH_CLUSTER_IDENTIFIER cfg) (DWH_DB_USER cfg)
              (DWH_DB_PASSWORD cfg) (S n)) as [[rc nc] tc].
  unfold result, calls_after in Hr, Hn. cbn [fst snd] in Hr, Hn. subst.
  step sleep_run. rewrite bind_discard. finish_run. reflexivity.
Qed.

(** The status check and what follows it, with [None] for the role. *)
Lemma create_cluster_phase_without_role (int : string -> res Z) (w : World)
    (cfg : Config) (n : nat) :
  let cid := DWH_CLUSTER_IDENTIFIER cfg in
  create_cluster_phase int w cfg None n =
  (match observed w cid n with
   | Ok status =>
       if String.eqb status "unknown"
       then Raise (Exn TypeError "'NoneType' object is not subscriptable")
       else Ok tt
   | Raise e => Raise e
   end, S n, trace (get_cluster_status w cid n)).
Proof.
  cbv zeta. unfold create_cluster_phase.
  step get_cluster_status_run.
  destruct (observed w (DWH_CLUSTER_IDENTIFIER cfg) n) as [s | e];
    [| reflexivity].
  destruct (String.eqb s "unknown"); [| reflexivity].
  rewrite lift_bind. reflexivity.
Qed.

(** The events of the create flow: the lookup of the role, its creation
    when the lookup gave [None], the status check, and, when the status
    is ['unknown'] and there is a role, the creation of the cluster, the
    pause and the polling loop. *)
Lemma main_create_trace (int : string -> res Z) (w : World) (cfg : Config)
    (n : nat) :
  let nm := DWH_IAM_ROLE_NAME cfg in
  let cid := DWH_CLUSTER_IDENTIFIER cfg in
  trace (main int w cfg true false false n) =
  (trace (get_iam_role w nm n)
   ++ match get_role_resp w with
      | Ok _ => []
      | Raise _ => trace (create_iam_role w nm n)
      end
   ++ trace (get_cluster_status w cid n)
   ++ match observed w cid n, role_obtained w nm n with
      | Ok status, Some role =>
          if String.eqb status "unknown"
          then
            trace (create_redshift_cluster int w (Arn role)
                     (DWH_CLUSTER_TYPE cfg) (DWH_NODE_TYPE cfg)
                     (DWH_NUM_NODES cfg) (DWH_DB cfg) cid
                     (DWH_DB_USER cfg) (DWH_DB_PASSWORD cfg) (S n))
            ++ [ESleep 10]
            ++ trace (poll_loop w "available" cid 10 status (S n))
          else []
      | _, _ => []
      end)%list.
Proof.
  cbv zeta. rewrite main_create_only. unfold role_obtained.
  rewrite bind_step, get_iam_role_run.
  destruct (get_role_resp w) as [r | e]; cbv iota; cbn [py_not].
  - rewrite ret_bind. unfold with_prefix at 1. unfold trace at 1.
    cbn [snd]. rewrite create_cluster_phase_with_role. cbv zeta.
    unfold result at 1. cbn [fst].
    destruct (observed w (DWH_CLUSTER_IDENTIFIER cfg) n); reflexivity.
  - rewrite bind_step, create_iam_role_run. cbv zeta.
    destruct (create_role_resp w) as [r | e'];
      [destruct (attach_role_policy_resp w) as [a | e'] |]; cbv iota.
    + unfold with_prefix, trace at 1 2. cbn [snd].
      fold (trace (create_cluster_phase int w cfg (Some (create_Role r)) n)).
      rewrite create_cluster_phase_with_role. cbv zeta.
      unfold result, trace at 1 2. cbn [fst snd].
      rewrite <- !app_assoc.
      destruct (observed w (DWH_CLUSTER_IDENTIFIER cfg) n); reflexivity.
    + rewrite create_cluster_phase_without_role. cbv zeta.
      unfold with_prefix, result, calls_after, trace. cbn [fst snd].
      rewrite <- !app_assoc.
      destruct (observed w (DWH_CLUSTER_IDENTIFIER cfg) n);
        rewrite ?app_nil_r; reflexivity.
    + rewrite create_cluster_phase_without_role. cbv zeta.
      unfold with_prefix, result, calls_after, trace. cbn [fst snd].
      rewrite <- !app_assoc.
      destruct (observed w (DWH_CLUSTER_IDENTIFIER cfg) n);
        rewrite ?app_nil_r; reflexivity.
Qed.

Lemma create_cluster_phase_with_role_calls (int : string -> res Z)
    (w : World) (cfg : Config) (role : Role) (n : nat) :
  let cid := DWH_CLUSTER_IDENTIFIER cfg in
  calls_after (create_cluster_phase int w cfg (Some role) n) =
  match observed w cid n with
  | Ok status =>
      if String.eqb status "unknown"
      then calls_after (poll_loop w "available" cid 10 status (S n))
      else S n
  | Raise _ => S n
  end.
Proof.
  cbv zeta. unfold create_cluster_phase.
  step get_cluster_status_run.
  destruct (observed w (DWH_CLUSTER_IDENTIFIER cfg) n) as [s | e];
    [| reflexivity].
  destruct (String.eqb s "unknown"); [| reflexivity].
  rewrite lift_bind. cbn [subscript_Arn]. rewrite bind_step.
  destruct (create_redshift_cluster_returns int w (Arn role)
              (DWH_CLUSTER_TYPE cfg) (DWH_NODE_TYPE cfg)
              (DWH_NUM_NODES cfg) (DWH_DB cfg)
              (DWH_CLUSTER_IDENTIFIER cfg) (DWH_DB_USER cfg)
              (DWH_DB_PASSWORD cfg) (S n)) as (r & Hr & Hn).
  destruct (create_redshift_cluster int w (Arn role)
              (DWH_CLUSTER_TYPE cfg) (DWH_NODE_TYPE cfg)
              (DWH_NUM_NODES cfg) (DWH_DB cfg)
              (DWH_CLUSTER_IDENTIFIER cfg) (DWH_DB_USER cfg)
              (DWH_DB_PASSWORD cfg) (S n)) as [[rc nc] tc].
  unfold result, calls_after in Hr, Hn. cbn [fst snd] in Hr, Hn. subst.
  step sleep_run. rewrite bind_discard. finish_run. reflexivity.
Qed.

(** The number of describe-status calls after the create flow: the one
    of the status check and, when the flow gets there, the ones of the
    polling loop. *)
Lemma main_create_calls_after (int : string -> res Z) (w : World)
    (cfg : Config) (n : nat) :
  let nm := DWH_IAM_ROLE_NAME cfg in
  let cid := DWH_CLUSTER_IDENTIFIER cfg in
  calls_after (main int w cfg true false false n) =
  match observed w cid n, role_obtained w nm n with
  | Ok status, Some role =>
      if String.eqb status "unknown"
      then calls_after (poll_loop w "available" cid 10 status (S n))
      else S n
  | _, _ => S n
  end.
Proof.
  cbv zeta. rewrite main_create_only. unfold role_obtained.
  rewrite bind_step, get_iam_role_run.
  destruct (get_role_resp w) as [r | e]; cbv iota; cbn [py_not].
  - rewrite ret_bind. unfold with_prefix at 1. unfold calls_after at 1.
    cbn [fst snd]. unfold result at 1. cbn [fst].
    fold (calls_after (create_cluster_phase int w cfg
                         (Some (get_Role r)) n)).
    rewrite create_cluster_phase_with_role_calls. cbv zeta.
    destruct (observed w (DWH_CLUSTER_IDENTIFIER cfg) n); reflexivity.
  - rewrite bind_step, create_iam_role_run. cbv zeta.
    destruct (create_role_resp w) as [r | e'];
      [destruct (attach_role_policy_resp w) as [a | e'] |]; cbv iota.
    + unfold with_prefix, calls_after at 1 2. cbn [fst snd].
      fold (calls_after (create_cluster_phase int w cfg
                           (Some (create_Role r)) n)).
      rewrite create_cluster_phase_with_role_calls. cbv zeta.
      unfold result. cbn [fst].
      destruct (observed w (DWH_CLUSTER_IDENTIFIER cfg) n); reflexivity.
    + rewrite create_cluster_phase_without_role. cbv zeta.
      unfold with_prefix, result, calls_after. cbn [fst snd].
      destruct (observed w (DWH_CLUSTER_IDENTIFIER cfg) n); reflexivity.
    + rewrite create_cluster_phase_without_role. cbv zeta.
      unfold with_prefix, result, calls_after. cbn [fst snd].
      destruct (observed w (DWH_CLUSTER_IDENTIFIER cfg) n); reflexivity.
Qed.

(** ** The unguarded [None] *)

(** C8. When the role lookup and the role creation both fail, each
    helper masks its failure and returns [None]; when the cluster status
    is then ['unknown'], the create flow reads [dwhRole['Arn']] off
    [None] and ends with a [TypeError], before any [create_cluster]
    call. *)
Theorem create_flow_crashes_on_masked_role_failure
    (int : string -> res Z) (w : World) (cfg : Config) (n : nat)
    (e1 e2 : exn) :
  get_role_resp w = Raise e1 ->
  create_role_resp w = Raise e2 ->
  observed w (DWH_CLUSTER_IDENTIFIER cfg) n = Ok "unknown" ->
  result (get_iam_role w (DWH_IAM_ROLE_NAME cfg) n) = Ok None /\
  result (create_iam_role w (DWH_IAM_ROLE_NAME cfg) n) = Ok None /\
  result (main int w cfg true false false n)
  = Raise (Exn TypeError "'NoneType' object is not subscriptable") /\
  count_calls is_cluster_mutation (trace (main int w cfg true false false n))
  = 0.
Proof.
  intros H1 H2 H3.
  rewrite main_create_only, get_iam_role_run, create_iam_role_run, H1, H2.
  cbv zeta.
  split; [reflexivity |]. split; [reflexivity |].
  step get_iam_role_run. rewrite H1. cbn [py_not].
  step create_iam_role_run. rewrite H2.
  unfold create_cluster_phase.
  step get_cluster_status_run. rewrite H3.
  cbn [String.eqb Ascii.eqb Bool.eqb].
  rewrite lift_bind. cbn [subscript_Arn].
  finish_run. split; reflexivity.
Qed.

Lemma create_flow_crashes_on_masked_role_failure_witness :
  result (command Sample.int Sample.denied
            "Usage: redshift_util.py [OPTIONS]" Sample.cfg ["create"] 0)
  = Raise (Exn TypeError "'NoneType' object is not subscriptable").
Proof.
  rewrite (proj1 (command_one_flag Sample.int Sample.denied
                    "Usage: redshift_util.py [OPTIONS]" Sample.cfg 0)).
  apply (create_flow_crashes_on_masked_role_failure Sample.int
           Sample.denied Sample.cfg 0 Sample.access_denied
           Sample.access_denied);
    reflexivity.
Defined.

(** ** Which calls a run makes *)

Lemma ECall_in_api_calls (c : ApiCall) (t : list Event) :
  In (ECall c) t <-> In c (api_calls t).
Proof.
  induction t as [| [c' | l | s] t IH]; cbn.
  - tauto.
  - rewrite <- IH. split.
    + intros [H | H]; [left; congruence | right; exact H].
    + intros [H | H]; [left; congruence | right; exact H].
  - rewrite <- IH. split; [intros [H | H]; [discriminate | exact H] | auto].
  - rewrite <- IH. split; [intros [H | H]; [discriminate | exact H] | auto].
Qed.

Lemma poll_loop_unfold (w : World) (target cid status0 : string)
    (i n : nat) :
  poll_loop w target cid (S i) status0 n =
  match observed w cid n with
  | Ok s =>
      if String.eqb s target
      then (Ok s, S n, trace (get_cluster_status w cid n))
      else with_prefix
             (trace (get_cluster_status w cid n) ++ [ESleep 10; EPrint s])
             (poll_loop w target cid i s (S n))
  | Raise e => (Raise e, S n, trace (get_cluster_status w cid n))
  end.
Proof.
  cbn [poll_loop]. step get_cluster_status_run.
  destruct (observed w cid n) as [s | e]; [| reflexivity].
  destruct (String.eqb s target); [reflexivity |].
  step sleep_run. unfold print, emit. rewrite bind_step.
  finish_run. reflexivity.
Qed.

(** The loop calls nothing but [describe_clusters]. *)
Lemma poll_loop_api_calls (w : World) (target cid : string)
    (p : ApiCall -> bool) :
  p (describe_clusters cid) = false ->
  forall (i : nat) (status0 : string) (n : nat),
    filter p (api_calls (trace (poll_loop w target cid i status0 n))) = [].
Proof.
  intros Hp. induction i as [| i IH]; intros status0 n.
  - reflexivity.
  - rewrite poll_loop_unfold, get_cluster_status_run.
    destruct (observed w cid n) as [s | e].
    + destruct (String.eqb s target).
      * cbn. rewrite Hp. reflexivity.
      * unfold with_prefix, trace at 1 2. cbn [snd].
        fold (trace (poll_loop w target cid i s (S n))).
        rewrite api_calls_app, filter_app, IH. cbn. rewrite Hp. reflexivity.
    + cbn. rewrite Hp. reflexivity.
Qed.

(** [create_redshift_cluster] calls nothing but [create_cluster]. *)
Lemma create_redshift_cluster_api_calls (int : string -> res Z) (w : World)
    (arn ct nt nn db cid user pw : string) (n : nat) :
  api_calls (trace (create_redshift_cluster int w arn ct nt nn db cid user
                      pw n)) = [] \/
  exists kw,
    api_calls (trace (create_redshift_cluster int w arn ct nt nn db cid user
                        pw n)) = [create_cluster kw].
Proof.
  rewrite create_redshift_cluster_run. cbv zeta.
  destruct (String.eqb nt "multi-node"); [destruct (int nn) |];
    try destruct (create_cluster_resp w); cbn;
    solve [left; reflexivity | right; eexists; reflexivity].
Qed.

Lemma get_iam_role_api_calls (w : World) (nm : string) (n : nat) :
  api_calls (trace (get_iam_role w nm n)) = [get_role nm].
Proof.
  rewrite get_iam_role_run. destruct (get_role_resp w); reflexivity.
Qed.

Lemma create_iam_role_api_calls (w : World) (nm : string) (n : nat) :
  api_calls (trace (create_iam_role w nm n)) =
  create_role "/" nm role_description assume_role_policy_document
  :: match create_role_resp w with
     | Ok _ =>
         [attach_role_policy nm
            "arn:aws:iam::aws:policy/AmazonS3ReadOnlyAccess"]
     | Raise _ => []
     end.
Proof.
  rewrite create_iam_role_run. cbv zeta.
  destruct (create_role_resp w); [| reflexivity].
  destruct (attach_role_policy_resp w); reflexivity.
Qed.

Lemma get_cluster_status_api_calls (w : World) (cid : string) (n : nat) :
  api_calls (trace (get_cluster_status w cid n)) = [describe_clusters cid].
Proof. rewrite get_cluster_status_run. reflexivity. Qed.

Lemma delete_redshift_cluster_api_calls (w : World) (cid : string)
    (n : nat) :
  api_calls (trace (delete_redshift_cluster w cid n))
  = [delete_cluster cid true].
Proof.
  rewrite delete_redshift_cluster_run.
  destruct (delete_cluster_resp w); reflexivity.
Qed.

(** The events of the delete flow: the status check and, when the status
    is ['available'], the deletion and the polling loop. *)
Lemma main_delete_trace (int : string -> res Z) (w : World) (cfg : Config)
    (n : nat) :
  let cid := DWH_CLUSTER_IDENTIFIER cfg in
  trace (main int w cfg false true false n) =
  (trace (get_cluster_status w cid n)
   ++ match observed w cid n with
      | Ok status =>
          if String.eqb status "available"
          then
            trace (delete_redshift_cluster w cid (S n))
            ++ trace (poll_loop w "unknown" cid 10 status (S n))
          else []
      | Raise _ => []
      end)%list.
Proof.
  cbv zeta. rewrite main_delete_only.
  step get_cluster_status_run.
  destruct (observed w (DWH_CLUSTER_IDENTIFIER cfg) n) as [s | e];
    [| reflexivity].
  destruct (String.eqb s "available"); [| reflexivity].
  step delete_redshift_cluster_run. rewrite bind_discard.
  finish_run. rewrite <- ?app_assoc. reflexivity.
Qed.

(** ** The gates of the two flows *)

Lemma mutation_in_trace (c : ApiCall) (t : list Event) :
  is_cluster_mutation c = true -> In (ECall c) t ->
  In c (filter is_cluster_mutation (api_calls t)).
Proof.
  intros Hc Hin. apply filter_In. split; [| exact Hc].
  apply ECall_in_api_calls. exact Hin.
Qed.

(** C2. A call that creates or deletes a cluster occurs in the create
    flow only if the status observed by the check before it is
    ['unknown'], and it is then a [create_cluster] call; it occurs in the
    delete flow only if the observed status is ['available'], and it is
    then the [delete_cluster] call.  For any other observed status the
    flow makes no such call. *)
Theorem cluster_mutation_is_gated_by_status (int : string -> res Z)
    (w : World) (cfg : Config) (c : ApiCall) (n : nat) :
  is_cluster_mutation c = true ->
  (In (ECall c) (trace (main int w cfg true false false n)) ->
   observed w (DWH_CLUSTER_IDENTIFIER cfg) n = Ok "unknown" /\
   exists kw, c = create_cluster kw) /\
  (In (ECall c) (trace (main int w cfg false true false n)) ->
   observed w (DWH_CLUSTER_IDENTIFIER cfg) n = Ok "available" /\
   c = delete_cluster (DWH_CLUSTER_IDENTIFIER cfg) true).
Proof.
  intros Hc. split; intros Hin; apply (mutation_in_trace c _ Hc) in Hin.
  - rewrite main_create_trace in Hin. cbv zeta in Hin.
    rewrite !api_calls_app, !filter_app, get_iam_role_api_calls,
      get_cluster_status_api_calls in Hin.
    assert (Hrole :
      filter is_cluster_mutation
        (api_calls
           match get_role_resp w with
           | Ok _ => []
           | Raise _ => trace (create_iam_role w (DWH_IAM_ROLE_NAME cfg) n)
           end) = []).
    { destruct (get_role_resp w); [reflexivity |].
      rewrite create_iam_role_api_calls.
      destruct (create_role_resp w); reflexivity. }
    rewrite Hrole in Hin. cbn [filter is_cluster_mutation app] in Hin.
    destruct (observed w (DWH_CLUSTER_IDENTIFIER cfg) n) as [s | e];
      [| destruct Hin].
    destruct (role_obtained w (DWH_IAM_ROLE_NAME cfg) n) as [role |];
      [| destruct Hin].
    destruct (String.eqb s "unknown") eqn:Hs; [| destruct Hin].
    apply String.eqb_eq in Hs. subst s. split; [reflexivity |].
    rewrite !api_calls_app, !filter_app in Hin. cbn [api_calls] in Hin.
    rewrite (poll_loop_api_calls w "available" _ is_cluster_mutation
               eq_refl) in Hin.
    rewrite app_nil_r in Hin.
    apply filter_In in Hin. destruct Hin as [Hin _].
    destruct (create_redshift_cluster_api_calls int w (Arn role)
                (DWH_CLUSTER_TYPE cfg) (DWH_NODE_TYPE cfg)
                (DWH_NUM_NODES cfg) (DWH_DB cfg)
                (DWH_CLUSTER_IDENTIFIER cfg) (DWH_DB_USER cfg)
                (DWH_DB_PASSWORD cfg) (S n)) as [Hnone | [kw Hone]].
    + rewrite Hnone in Hin. destruct Hin.
    + rewrite Hone in Hin. destruct Hin as [<- | []]. exists kw. reflexivity.
  - rewrite main_delete_trace in Hin. cbv zeta in Hin.
    rewrite !api_calls_app, !filter_app, get_cluster_status_api_calls in Hin.
    cbn [filter is_cluster_mutation app] in Hin.
    destruct (observed w (DWH_CLUSTER_IDENTIFIER cfg) n) as [s | e];
      [| destruct Hin].
    destruct (String.eqb s "available") eqn:Hs; [| destruct Hin].
    apply String.eqb_eq in Hs. subst s. split; [reflexivity |].
    rewrite !api_calls_app, !filter_app in Hin.
    rewrite (poll_loop_api_calls w "unknown" _ is_cluster_mutation
               eq_refl) in Hin.
    rewrite delete_redshift_cluster_api_calls in Hin.
    cbn in Hin. destruct Hin as [<- | []]. reflexivity.
Qed.

Lemma cluster_mutation_is_gated_by_status_witness :
  observed Sample.running "dwhCluster" 0 = Ok "available" /\
  delete_cluster "dwhCluster" true = delete_cluster "dwhCluster" true.
Proof.
  refine (proj2 (cluster_mutation_is_gated_by_status Sample.int
                   Sample.running Sample.cfg
                   (delete_cluster "dwhCluster" true) 0 _) _).
  - reflexivity.
  - vm_compute. right. right. right. left. reflexivity.
Defined.

(** ** The role of the create flow *)

(** C5, as the code has it.  When the lookup finds a role, the create
    flow calls neither [create_role] nor [attach_role_policy].  When the
    lookup gives [None], the flow calls [create_role] exactly once, and
    it calls [attach_role_policy], for the fixed read-only storage
    policy, exactly once when that [create_role] call succeeds and not at
    all when it raises. *)
Theorem role_calls_of_create_flow (int : string -> res Z) (w : World)
    (cfg : Config) (n : nat) :
  let nm := DWH_IAM_ROLE_NAME cfg in
  let calls := api_calls (trace (main int w cfg true false false n)) in
  match result (get_iam_role w nm n) with
  | Ok (Some _) =>
      filter is_create_role calls = [] /\
      filter is_attach_role_policy calls = []
  | _ =>
      filter is_create_role calls
      = [create_role "/" nm role_description assume_role_policy_document] /\
      filter is_attach_role_policy calls
      = match create_role_resp w with
        | Ok _ =>
            [attach_role_policy nm
               "arn:aws:iam::aws:policy/AmazonS3ReadOnlyAccess"]
        | Raise _ => []
        end
  end.
Proof.
  cbv zeta. rewrite main_create_trace. cbv zeta.
  rewrite !api_calls_app, !filter_app, get_iam_role_api_calls,
    get_cluster_status_api_calls.
  assert (Hrest : forall p : ApiCall -> bool,
    p (describe_clusters (DWH_CLUSTER_IDENTIFIER cfg)) = false ->
    (forall kw, p (create_cluster kw) = false) ->
    filter p
      (api_calls
         match observed w (DWH_CLUSTER_IDENTIFIER cfg) n,
               role_obtained w (DWH_IAM_ROLE_NAME cfg) n with
         | Ok status, Some role =>
             if String.eqb status "unknown"
             then
               (trace (create_redshift_cluster int w (Arn role)
                         (DWH_CLUSTER_TYPE cfg) (DWH_NODE_TYPE cfg)
                         (DWH_NUM_NODES cfg) (DWH_DB cfg)
                         (DWH_CLUSTER_IDENTIFIER cfg)
                         (DWH_DB_USER cfg) (DWH_DB_PASSWORD cfg) (S n))
                ++ [ESleep 10]
                ++ trace (poll_loop w "available"
                            (DWH_CLUSTER_IDENTIFIER cfg) 10 status (S n)))%list
             else []
         | _, _ => []
         end) = []).
  { intros p Hdescribe Hcreate.
    destruct (observed w (DWH_CLUSTER_IDENTIFIER cfg) n) as [s | e];
      [| reflexivity].
    destruct (role_obtained w (DWH_IAM_ROLE_NAME cfg) n) as [role |];
      [| reflexivity].
    destruct (String.eqb s "unknown"); [| reflexivity].
    rewrite !api_calls_app, !filter_app.
    rewrite (poll_loop_api_calls w "available" _ p Hdescribe).
    destruct (create_redshift_cluster_api_calls int w (Arn role)
                (DWH_CLUSTER_TYPE cfg) (DWH_NODE_TYPE cfg)
                (DWH_NUM_NODES cfg) (DWH_DB cfg)
                (DWH_CLUSTER_IDENTIFIER cfg) (DWH_DB_USER cfg)
                (DWH_DB_PASSWORD cfg) (S n)) as [Hnone | [kw Hone]].
    - rewrite Hnone. reflexivity.
    - rewrite Hone. cbn. rewrite Hcreate. reflexivity. }
  rewrite !Hrest by (intros; reflexivity).
  rewrite get_iam_role_run.
  destruct (get_role_resp w) as [r | e]; unfold result; cbn [fst].
  - split; reflexivity.
  - rewrite create_iam_role_api_calls.
    destruct (create_role_resp w); split; reflexivity.
Qed.

(** C5, as it is stated, fails: when the lookup finds no role and the
    [create_role] call raises, the create flow has called [create_role]
    once and [attach_role_policy] not at all. *)
Lemma no_policy_attachment_after_failed_creation :
  ~ (forall (int : string -> res Z) (w : World) (cfg : Config) (n : nat),
       result (get_iam_role w (DWH_IAM_ROLE_NAME cfg) n) = Ok None ->
       count_calls is_create_role
         (trace (main int w cfg true false false n)) = 1 /\
       count_calls is_attach_role_policy
         (trace (main int w cfg true false false n)) = 1).
Proof.
  intros H.
  destruct (H Sample.int Sample.denied Sample.cfg 0 eq_refl) as [_ Hattach].
  vm_compute in Hattach. discriminate Hattach.
Qed.

(** * Further properties *)

(** ** The command without a conflict *)



(** ** The status flow *)

(** X2. With the status flag alone, [main] makes one call,
    [describe_clusters], and prints the status it got (['unknown'] for a
    cluster reported as not found); an exception of the call other than
    not-found ends the run before any status line is printed. *)
Theorem status_flow_describes_once (int : string -> res Z) (w : World)
    (cfg : Config) (n : nat) :
  let cid := DWH_CLUSTER_IDENTIFIER cfg in
  main int w cfg false false true n =
  match observed w cid n with
  | Ok s =>
      (Ok tt, S n,
       [EPrint (status_banner cid); ECall (describe_clusters cid);
        EPrint s])
  | Raise e =>
      (Raise e, S n,
       [EPrint (status_banner cid); ECall (describe_clusters cid)])
  end.
Proof.
  cbv zeta. unfold main. cbv zeta.
  rewrite bind_step, bind_step, get_cluster_status_run.
  destruct (observed w (DWH_CLUSTER_IDENTIFIER cfg) n) as [s | e];
    [| reflexivity].
  cbv iota. unfold print, emit. finish_run.
  rewrite !ret_bind. reflexivity.
Qed.

(** ** The budgets of the two flows *)

Lemma slept_app (t1 t2 : list Event) :
  slept (t1 ++ t2) = slept t1 + slept t2.
Proof.
  induction t1 as [| [c | l | s] t1 IH]; cbn; rewrite ?IH; lia.
Qed.

Lemma describe_calls_app (t1 t2 : list Event) :
  describe_calls (t1 ++ t2) = describe_calls t1 + describe_calls t2.
Proof. apply count_calls_app. Qed.

(** The loop from the counter [i], whatever the API answers: at most [i]
    calls, all of them counted, and at most 10 seconds of sleep a call. *)
Lemma poll_loop_budget (w : World) (target cid : string) (i : nat) :
  forall (status0 : string) (n0 : nat),
    let run := poll_loop w target cid i status0 n0 in
    n0 <= calls_after run /\
    calls_after run <= n0 + i /\
    describe_calls (trace run) = calls_after run - n0 /\
    slept (trace run) <= 10 * (calls_after run - n0).
Proof.
  induction i as [| i IH]; intros status0 n0; cbv zeta.
  - cbn -[Nat.sub Nat.mul]. repeat split; lia.
  - rewrite poll_loop_unfold, get_cluster_status_run.
    destruct (observed w cid n0) as [s | e].
    + destruct (String.eqb s target).
      * cbn -[Nat.sub Nat.mul]. repeat split; lia.
      * specialize (IH s (S n0)). cbv zeta in IH.
        destruct IH as (Hge & Hle & Hcalls & Hslept).
        unfold with_prefix, calls_after, trace in *. cbn [fst snd] in *.
        rewrite describe_calls_app, slept_app, Hcalls.
        cbn -[Nat.sub Nat.mul]. repeat split; lia.
    + cbn -[Nat.sub Nat.mul]. repeat split; lia.
Qed.

Lemma main_delete_calls_after (int : string -> res Z) (w : World)
    (cfg : Config) (n : nat) :
  let cid := DWH_CLUSTER_IDENTIFIER cfg in
  calls_after (main int w cfg false true false n) =
  match observed w cid n with
  | Ok status =>
      if String.eqb status "available"
      then calls_after (poll_loop w "unknown" cid 10 status (S n))
      else S n
  | Raise _ => S n
  end.
Proof.
  cbv zeta. rewrite main_delete_only.
  step get_cluster_status_run.
  destruct (observed w (DWH_CLUSTER_IDENTIFIER cfg) n) as [s | e];
    [| reflexivity].
  destruct (String.eqb s "available"); [| reflexivity].
  step delete_redshift_cluster_run. rewrite bind_discard.
  finish_run. reflexivity.
Qed.

Lemma helpers_do_not_sleep (int : string -> res Z) (w : World)
    (nm arn ct nt nn db cid user pw : string) (n : nat) :
  slept (trace (get_iam_role w nm n)) = 0 /\
  slept (trace (create_iam_role w nm n)) = 0 /\
  slept (trace (get_cluster_status w cid n)) = 0 /\
  slept (trace (create_redshift_cluster int w arn ct nt nn db cid user pw n))
  = 0 /\
  slept (trace (delete_redshift_cluster w cid n)) = 0.
Proof.
  rewrite get_iam_role_run, create_iam_role_run, get_cluster_status_run,
    create_redshift_cluster_run, delete_redshift_cluster_run.
  cbv zeta.
  destruct (get_role_resp w), (create_role_resp w),
    (attach_role_policy_resp w), (delete_cluster_resp w),
    (create_cluster_resp w), (String.eqb nt "multi-node"), (int nn);
    repeat split; reflexivity.
Qed.

Lemma helpers_do_not_describe (int : string -> res Z) (w : World)
    (nm arn ct nt nn db cid user pw : string) (n : nat) :
  describe_calls (trace (get_iam_role w nm n)) = 0 /\
  describe_calls (trace (create_iam_role w nm n)) = 0 /\
  describe_calls (trace (get_cluster_status w cid n)) = 1 /\
  describe_calls
    (trace (create_redshift_cluster int w arn ct nt nn db cid user pw n))
  = 0 /\
  describe_calls (trace (delete_redshift_cluster w cid n)) = 0.
Proof.
  rewrite get_iam_role_run, create_iam_role_run, get_cluster_status_run,
    create_redshift_cluster_run, delete_redshift_cluster_run.
  cbv zeta.
  destruct (get_role_resp w), (create_role_resp w),
    (attach_role_policy_resp w), (delete_cluster_resp w),
    (create_cluster_resp w), (String.eqb nt "multi-node"), (int nn);
    repeat split; reflexivity.
Qed.

(** X3. Whatever the API answers, failures included, the create flow
    makes between 1 and 11 describe-status calls and sleeps at most 110
    seconds (the pause after the creation and 10 seconds a poll), the
    delete flow makes between 1 and 11 describe-status calls and sleeps
    at most 100 seconds; in both, the describe-status calls in the trace
    are the calls counted. *)
Theorem flows_stay_within_budget (int : string -> res Z) (w : World)
    (cfg : Config) (n : nat) :
  let create_run := main int w cfg true false false n in
  let delete_run := main int w cfg false true false n in
  (S n <= calls_after create_run /\
   calls_after create_run <= n + 11 /\
   describe_calls (trace create_run) = calls_after create_run - n /\
   slept (trace create_run) <= 110) /\
  (S n <= calls_after delete_run /\
   calls_after delete_run <= n + 11 /\
   describe_calls (trace delete_run) = calls_after delete_run - n /\
   slept (trace delete_run) <= 100).
Proof.
  cbv zeta. split.
  - rewrite main_create_calls_after, main_create_trace. cbv zeta.
    rewrite !describe_calls_app, !slept_app.
    destruct (helpers_do_not_sleep int w (DWH_IAM_ROLE_NAME cfg) ""
                "" "" "" "" (DWH_CLUSTER_IDENTIFIER cfg) "" "" n)
      as (-> & Hs2 & -> & _).
    destruct (helpers_do_not_describe int w (DWH_IAM_ROLE_NAME cfg) ""
                "" "" "" "" (DWH_CLUSTER_IDENTIFIER cfg) "" "" n)
      as (-> & Hd2 & -> & _).
    assert (Hrole :
      let t := match get_role_resp w with
               | Ok _ => []
               | Raise _ =>
                   trace (create_iam_role w (DWH_IAM_ROLE_NAME cfg) n)
               end in
      describe_calls t = 0 /\ slept t = 0).
    { destruct (get_role_resp w); [split; reflexivity | split; assumption]. }
    cbv zeta in Hrole. destruct Hrole as [-> ->].
    destruct (observed w (DWH_CLUSTER_IDENTIFIER cfg) n) as [s | e];
      [| cbn -[Nat.sub]; repeat split; lia].
    destruct (role_obtained w (DWH_IAM_ROLE_NAME cfg) n) as [role |];
      [| cbn -[Nat.sub]; repeat split; lia].
    destruct (String.eqb s "unknown"); [| cbn -[Nat.sub]; repeat split; lia].
    rewrite !describe_calls_app, !slept_app.
    destruct (helpers_do_not_sleep int w "" (Arn role)
                (DWH_CLUSTER_TYPE cfg) (DWH_NODE_TYPE cfg)
                (DWH_NUM_NODES cfg) (DWH_DB cfg)
                (DWH_CLUSTER_IDENTIFIER cfg) (DWH_DB_USER cfg)
                (DWH_DB_PASSWORD cfg) (S n)) as (_ & _ & _ & -> & _).
    destruct (helpers_do_not_describe int w "" (Arn role)
                (DWH_CLUSTER_TYPE cfg) (DWH_NODE_TYPE cfg)
                (DWH_NUM_NODES cfg) (DWH_DB cfg)
                (DWH_CLUSTER_IDENTIFIER cfg) (DWH_DB_USER cfg)
                (DWH_DB_PASSWORD cfg) (S n)) as (_ & _ & _ & -> & _).
    destruct (poll_loop_budget w "available" (DWH_CLUSTER_IDENTIFIER cfg)
                10 s (S n)) as (Hge & Hle & -> & Hslept).
    change (describe_calls [ESleep 10]) with 0.
    change (slept [ESleep 10]) with 10.
    repeat split; lia.
  - rewrite main_delete_calls_after, main_delete_trace. cbv zeta.
    rewrite !describe_calls_app, !slept_app.
    destruct (helpers_do_not_sleep int w "" "" "" "" "" ""
                (DWH_CLUSTER_IDENTIFIER cfg) "" "" n)
      as (_ & _ & -> & _).
    destruct (helpers_do_not_describe int w "" "" "" "" "" ""
                (DWH_CLUSTER_IDENTIFIER cfg) "" "" n)
      as (_ & _ & -> & _).
    destruct (observed w (DWH_CLUSTER_IDENTIFIER cfg) n) as [s | e];
      [| cbn -[Nat.sub]; repeat split; lia].
    destruct (String.eqb s "available");
      [| cbn -[Nat.sub]; repeat split; lia].
    rewrite !describe_calls_app, !slept_app.
    destruct (helpers_do_not_sleep int w "" "" "" "" "" ""
                (DWH_CLUSTER_IDENTIFIER cfg) "" "" (S n))
      as (_ & _ & _ & _ & ->).
    destruct (helpers_do_not_describe int w "" "" "" "" "" ""
                (DWH_CLUSTER_IDENTIFIER cfg) "" "" (S n))
      as (_ & _ & _ & _ & ->).
    destruct (poll_loop_budget w "unknown" (DWH_CLUSTER_IDENTIFIER cfg)
                10 s (S n)) as (Hge & Hle & -> & Hslept).
    repeat split; lia.
Qed.

(** ** Failures while polling *)

(** X4. When the polling loop has seen [k] statuses, none of them the
    target, and the next describe-status call, still within the budget,
    raises an exception other than not-found, the loop ends there with
    that exception: it has made [k + 1] calls and makes no more. *)
Theorem poll_loop_aborts_on_failure (w : World) (target cid : string)
    (i : nat) : forall (k : nat) (status0 : string) (n0 : nat) (e : exn),
  k < i ->
  (forall j, j < k ->
     exists s, observed w cid (n0 + j) = Ok s /\ s <> target) ->
  observed w cid (n0 + k) = Raise e ->
  result (poll_loop w target cid i status0 n0) = Raise e /\
  calls_after (poll_loop w target cid i status0 n0) = n0 + S k.
Proof.
  induction i as [| i IH]; intros k status0 n0 e Hk Hbefore Hfail; [lia |].
  rewrite poll_loop_unfold.
  destruct k as [| k].
  - rewrite Nat.add_0_r in Hfail. rewrite Hfail. cbn. split; [reflexivity | lia].
  - destruct (Hbefore 0 ltac:(lia)) as (s & Hs & Hne).
    rewrite Nat.add_0_r in Hs. rewrite Hs.
    apply String.eqb_neq in Hne. rewrite Hne.
    unfold with_prefix, result, calls_after. cbn [fst snd].
    destruct (IH k s (S n0) e) as [Hres Hcalls].
    + lia.
    + intros j Hj. replace (S n0 + j) with (n0 + S j) by lia.
      apply Hbefore. lia.
    + replace (S n0 + k) with (n0 + S k) by lia. exact Hfail.
    + unfold result, calls_after in Hres, Hcalls.
      split; [exact Hres | lia].
Qed.

Lemma poll_loop_aborts_on_failure_witness :
  result (poll_loop SampleFailures.flaky "available" "dwhCluster" 10
            "unknown" 1) = Raise SampleFailures.throttled /\
  calls_after (poll_loop SampleFailures.flaky "available" "dwhCluster" 10
                 "unknown" 1) = 1 + 2.
Proof.
  apply (poll_loop_aborts_on_failure SampleFailures.flaky "available"
           "dwhCluster" 10 1 "unknown" 1 SampleFailures.throttled).
  - lia.
  - intros j Hj. assert (j = 0) by lia. subst j.
    exists "creating". split; [reflexivity | discriminate].
  - reflexivity.
Defined.

(** ** The keyword arguments of [create_cluster] *)

Lemma create_redshift_cluster_keywords (int : string -> res Z) (w : World)
    (arn ct nt nn db cid user pw : string) (n : nat) (kw : kwargs) :
  In (ECall (create_cluster kw))
    (trace (create_redshift_cluster int w arn ct nt nn db cid user pw n)) ->
  NoDup (map fst kw) /\
  dict_get "ClusterType" kw = Some (VStr ct) /\
  dict_get "NodeType" kw = Some (VStr nt) /\
  dict_get "DBName" kw = Some (VStr db) /\
  dict_get "ClusterIdentifier" kw = Some (VStr cid) /\
  dict_get "MasterUsername" kw = Some (VStr user) /\
  dict_get "MasterUserPassword" kw = Some (VStr pw) /\
  dict_get "IamRoles" kw = Some (VList [arn]) /\
  (forall v, dict_get "NumberOfNodes" kw = Some v ->
             exists z, int nn = Ok z /\ v = VInt z).
Proof.
  rewrite create_redshift_cluster_run. cbv zeta.
  assert (Hdistinct : forall l : list string,
            l = ["ClusterType"; "NumberOfNodes"; "NodeType"; "DBName";
                 "ClusterIdentifier"; "MasterUsername";
                 "MasterUserPassword"; "IamRoles"] \/
            l = ["ClusterType"; "NodeType"; "DBName"; "ClusterIdentifier";
                 "MasterUsername"; "MasterUserPassword"; "IamRoles"] ->
            NoDup l).
  { intros l [-> | ->];
      repeat (constructor; [cbn; intuition discriminate |]); constructor. }
  destruct (String.eqb nt "multi-node");
    [destruct (int nn) as [z | e] eqn:Hint |];
    unfold trace; destruct (create_cluster_resp w); cbn [snd In];
    intros H;
    repeat match type of H with
           | _ \/ _ => destruct H as [H | H]
           end;
    try discriminate H; try contradiction;
    injection H as <-;
    (split; [apply Hdistinct; cbn; auto |]);
    repeat (split; [reflexivity |]);
    intros v Hv; cbn in Hv;
    first [ discriminate Hv
          | injection Hv as <-; eexists; split; reflexivity ].
Qed.

(** X5. Every [create_cluster] call that [create_redshift_cluster]
    issues has pairwise different keyword names, so that the expansion of
    [hw_params] beside the named keywords cannot clash; it carries the
    cluster type, node type, database name, cluster identifier, master
    user name and password it was given, the role ARN as the single
    element of [IamRoles], and a [NumberOfNodes] only as the integer read
    from [DWH_NUM_NODES]. *)
Theorem create_cluster_call_carries_arguments (int : string -> res Z)
    (w : World) (arn ct nt nn db cid user pw : string) (n : nat)
    (kw : kwargs) :
  In (ECall (create_cluster kw))
    (trace (create_redshift_cluster int w arn ct nt nn db cid user pw n)) ->
  NoDup (map fst kw) /\
  dict_get "ClusterType" kw = Some (VStr ct) /\
  dict_get "NodeType" kw = Some (VStr nt) /\
  dict_get "DBName" kw = Some (VStr db) /\
  dict_get "ClusterIdentifier" kw = Some (VStr cid) /\
  dict_get "MasterUsername" kw = Some (VStr user) /\
  dict_get "MasterUserPassword" kw = Some (VStr pw) /\
  dict_get "IamRoles" kw = Some (VList [arn]) /\
  (forall v, dict_get "NumberOfNodes" kw = Some v ->
             exists z, int nn = Ok z /\ v = VInt z).
Proof.
  exact (create_redshift_cluster_keywords int w arn ct nt nn db cid user pw
           n kw).
Qed.

Lemma create_cluster_call_carries_arguments_witness :
  dict_get "IamRoles"
    [("ClusterType", VStr "multi-node"); ("NumberOfNodes", VInt 4);
     ("NodeType", VStr "multi-node"); ("DBName", VStr "dwh");
     ("ClusterIdentifier", VStr "dwhCluster");
     ("MasterUsername", VStr "dwhuser");
     ("MasterUserPassword", VStr "Passw0rd");
     ("IamRoles", VList [Arn Sample.role])]
  = Some (VList [Arn Sample.role]).
Proof.
  apply (create_cluster_call_carries_arguments Sample.int Sample.fresh
           (Arn Sample.role) "multi-node" "multi-node" "4" "dwh"
           "dwhCluster" "dwhuser" "Passw0rd" 0).
  cbn. right. left. reflexivity.
Defined.

(** X6. When [DWH_NODE_TYPE] is ['multi-node'] and [DWH_NUM_NODES] is
    not an integer, [create_redshift_cluster] makes no API call at all:
    the [ValueError] of [int] is caught like an API failure, printed, and
    the helper returns [None]. *)
Theorem bad_node_count_is_masked (int : string -> res Z) (w : World)
    (arn ct nt nn db cid user pw : string) (n : nat) (e : exn) :
  nt = "multi-node" ->
  int nn = Raise e ->
  create_redshift_cluster int w arn ct nt nn db cid user pw n
  = (Ok None, n,
     [EPrint ("Create Redshift cluster: " ++ cid ++ ""); EPrint (str e)]).
Proof.
  intros -> Hint. rewrite create_redshift_cluster_run. cbv zeta.
  rewrite String.eqb_refl, Hint. reflexivity.
Qed.

Lemma bad_node_count_is_masked_witness :
  create_redshift_cluster Sample.int Sample.fresh (Arn Sample.role)
    "multi-node" "multi-node" "four" "dwh" "dwhCluster" "dwhuser"
    "Passw0rd" 0
  = (Ok None, 0,
     [EPrint "Create Redshift cluster: dwhCluster";
      EPrint "invalid literal for int() with base 10"]).
Proof.
  apply (bad_node_count_is_masked Sample.int Sample.fresh (Arn Sample.role)
           "multi-node" "multi-node" "four" "dwh" "dwhCluster" "dwhuser"
           "Passw0rd" 0
           (Exn ValueError "invalid literal for int() with base 10"));
    reflexivity.
Defined.

(** ** The role handed to the cluster *)

Lemma call_not_in_poll_loop (w : World) (target cid : string) (i : nat)
    (status0 : string) (n : nat) (c : ApiCall) :
  is_describe c = false ->
  ~ In (ECall c) (trace (poll_loop w target cid i status0 n)).
Proof.
  intros Hc Hin. apply ECall_in_api_calls in Hin.
  assert (Hf : In c (filter (fun c => negb (is_describe c))
                       (api_calls (trace (poll_loop w target cid i status0
                                            n))))).
  { apply filter_In. rewrite Hc. auto. }
  rewrite (poll_loop_api_calls w target cid
             (fun c => negb (is_describe c)) eq_refl) in Hf.
  destruct Hf.
Qed.

Lemma create_flow_create_cluster_call (int : string -> res Z) (w : World)
    (cfg : Config) (n : nat) (kw : kwargs) :
  In (ECall (create_cluster kw)) (trace (main int w cfg true false false n)) ->
  exists role,
    role_obtained w (DWH_IAM_ROLE_NAME cfg) n = Some role /\
    observed w (DWH_CLUSTER_IDENTIFIER cfg) n = Ok "unknown" /\
    In (ECall (create_cluster kw))
      (trace (create_redshift_cluster int w (Arn role)
                (DWH_CLUSTER_TYPE cfg) (DWH_NODE_TYPE cfg)
                (DWH_NUM_NODES cfg) (DWH_DB cfg)
                (DWH_CLUSTER_IDENTIFIER cfg) (DWH_DB_USER cfg)
                (DWH_DB_PASSWORD cfg) (S n))).
Proof.
  rewrite main_create_trace. cbv zeta. rewrite !in_app_iff.
  intros [H | [H | [H | H]]].
  - apply ECall_in_api_calls in H. rewrite get_iam_role_api_calls in H.
    destruct H as [H | []]. discriminate H.
  - destruct (get_role_resp w); [destruct H |].
    apply ECall_in_api_calls in H. rewrite create_iam_role_api_calls in H.
    destruct (create_role_resp w); cbn in H; intuition discriminate.
  - apply ECall_in_api_calls in H.
    rewrite get_cluster_status_api_calls in H.
    destruct H as [H | []]. discriminate H.
  - destruct (observed w (DWH_CLUSTER_IDENTIFIER cfg) n) as [s | e];
      [| destruct H].
    destruct (role_obtained w (DWH_IAM_ROLE_NAME cfg) n) as [role |];
      [| destruct H].
    destruct (String.eqb s "unknown") eqn:Hs; [| destruct H].
    apply String.eqb_eq in Hs. subst s.
    rewrite !in_app_iff in H. destruct H as [H | [H | H]].
    + exists role. auto.
    + destruct H as [H | []]. discriminate H.
    + exfalso. revert H. apply call_not_in_poll_loop. reflexivity.
Qed.

Lemma role_obtained_origin (w : World) (nm : string) (n : nat)
    (role : Role) :
  role_obtained w nm n = Some role ->
  match get_role_resp w with
  | Ok r => role = get_Role r
  | Raise _ =>
      exists r a,
        create_role_resp w = Ok r /\
        attach_role_policy_resp w = Ok a /\
        role = create_Role r
  end.
Proof.
  unfold role_obtained. rewrite get_iam_role_run, create_iam_role_run.
  cbv zeta.
  destruct (get_role_resp w) as [r | e]; unfold result; cbn [fst].
  - intros H. injection H as <-. reflexivity.
  - destruct (create_role_resp w) as [r | e'];
      [destruct (attach_role_policy_resp w) as [a | e'] |];
      cbn [fst]; intros H; try discriminate H.
    injection H as <-. exists r, a. auto.
Qed.

(** X7. Whenever the create flow issues a [create_cluster] call, the
    status observed before was ['unknown'] and [IamRoles] holds the ARN
    of one role: the role the lookup found when it found one (an existing
    role is reused), and otherwise the role just created, in which case
    both the [create_role] call and the [attach_role_policy] call have
    succeeded before. *)
Theorem created_cluster_gets_role_at_hand (int : string -> res Z)
    (w : World) (cfg : Config) (n : nat) (kw : kwargs) :
  In (ECall (create_cluster kw)) (trace (main int w cfg true false false n)) ->
  observed w (DWH_CLUSTER_IDENTIFIER cfg) n = Ok "unknown" /\
  exists role,
    dict_get "IamRoles" kw = Some (VList [Arn role]) /\
    match get_role_resp w with
    | Ok r => role = get_Role r
    | Raise _ =>
        exists r a,
          create_role_resp w = Ok r /\
          attach_role_policy_resp w = Ok a /\
          role = create_Role r
    end.
Proof.
  intros H.
  destruct (create_flow_create_cluster_call int w cfg n kw H)
    as (role & Hrole & Hstatus & Hcall).
  split; [exact Hstatus |]. exists role. split.
  - apply (create_redshift_cluster_keywords int w _ _ _ _ _ _ _ _ _ kw Hcall).
  - exact (role_obtained_origin w _ n role Hrole).
Qed.

Lemma created_cluster_gets_role_at_hand_witness :
  exists role,
    dict_get "IamRoles"
      [("ClusterType", VStr "multi-node"); ("NodeType", VStr "dc2.large");
       ("DBName", VStr "dwh"); ("ClusterIdentifier", VStr "dwhCluster");
       ("MasterUsername", VStr "dwhuser");
       ("MasterUserPassword", VStr "Passw0rd");
       ("IamRoles", VList [Arn Sample.role])]
    = Some (VList [Arn role]) /\
    role = Sample.role.
Proof.
  apply (created_cluster_gets_role_at_hand Sample.int Sample.quick
           Sample.cfg 0).
  vm_compute. do 5 right. left. reflexivity.
Defined.

(** ** The calls of the delete flow *)

(** X8. Apart from its describe-status calls, the delete flow makes one
    call when the observed status is ['available'], the [delete_cluster]
    call for the configured cluster with [SkipFinalClusterSnapshot] set,
    and no call at all otherwise; it never calls IAM. *)
Theorem delete_flow_deletes_once (int : string -> res Z) (w : World)
    (cfg : Config) (n : nat) :
  let cid := DWH_CLUSTER_IDENTIFIER cfg in
  filter (fun c => negb (is_describe c))
    (api_calls (trace (main int w cfg false true false n)))
  = match observed w cid n with
    | Ok status =>
        if String.eqb status "available"
        then [delete_cluster cid true]
        else []
    | Raise _ => []
    end.
Proof.
  cbv zeta. rewrite main_delete_trace. cbv zeta.
  rewrite api_calls_app, filter_app, get_cluster_status_api_calls.
  destruct (observed w (DWH_CLUSTER_IDENTIFIER cfg) n) as [s | e];
    [| reflexivity].
  destruct (String.eqb s "available"); [| reflexivity].
  rewrite api_calls_app, filter_app, delete_redshift_cluster_api_calls.
  rewrite (poll_loop_api_calls w "unknown" _
             (fun c => negb (is_describe c)) eq_refl).
  reflexivity.
Qed.

(** ** Which flag a call needs *)

Lemma main_no_flag (int : string -> res Z) (w : World) (cfg : Config)
    (n : nat) :
  main int w cfg false false false n = (Ok tt, n, []).
Proof. unfold main. cbv zeta. rewrite !ret_bind. reflexivity. Qed.

Lemma main_status_api_calls (int : string -> res Z) (w : World)
    (cfg : Config) (n : nat) :
  api_calls (trace (main int w cfg false false true n))
  = [describe_clusters (DWH_CLUSTER_IDENTIFIER cfg)].
Proof.
  unfold main. cbv zeta.
  rewrite bind_step, bind_step, get_cluster_status_run.
  destruct (observed w (DWH_CLUSTER_IDENTIFIER cfg) n) as [s | e];
    [| reflexivity].
  cbv iota. unfold print, emit. finish_run.
  rewrite !ret_bind. reflexivity.
Qed.

(** The create flow makes no call that is forbidden to it. *)
Lemma main_create_calls_only (int : string -> res Z) (w : World)
    (cfg : Config) (n : nat) (p : ApiCall -> bool) :
  (forall c, flag_of_call c = None \/ flag_of_call c = Some (Some "create") ->
             p c = false) ->
  filter p (api_calls (trace (main int w cfg true false false n))) = [].
Proof.
  intros Hp. rewrite main_create_trace. cbv zeta.
  rewrite !api_calls_app, !filter_app, get_iam_role_api_calls,
    get_cluster_status_api_calls.
  cbn [filter]. rewrite !Hp by (cbn; auto). cbn [app].
  assert (Hrole :
    filter p
      (api_calls
         match get_role_resp w with
         | Ok _ => []
         | Raise _ => trace (create_iam_role w (DWH_IAM_ROLE_NAME cfg) n)
         end) = []).
  { destruct (get_role_resp w); [reflexivity |].
    rewrite create_iam_role_api_calls.
    destruct (create_role_resp w); cbn [filter];
      rewrite !Hp by (cbn; auto); reflexivity. }
  rewrite Hrole. cbn [app].
  destruct (observed w (DWH_CLUSTER_IDENTIFIER cfg) n) as [s | e];
    [| reflexivity].
  destruct (role_obtained w (DWH_IAM_ROLE_NAME cfg) n) as [role |];
    [| reflexivity].
  destruct (String.eqb s "unknown"); [| reflexivity].
  rewrite !api_calls_app, !filter_app. cbn [api_calls].
  rewrite (poll_loop_api_calls w "available" _ p) by (apply Hp; cbn; auto).
  destruct (create_redshift_cluster_api_calls int w (Arn role)
              (DWH_CLUSTER_TYPE cfg) (DWH_NODE_TYPE cfg)
              (DWH_NUM_NODES cfg) (DWH_DB cfg)
              (DWH_CLUSTER_IDENTIFIER cfg) (DWH_DB_USER cfg)
              (DWH_DB_PASSWORD cfg) (S n)) as [-> | [kw ->]].
  - reflexivity.
  - cbn [filter api_calls app]. rewrite Hp by (cbn; auto). reflexivity.
Qed.

(** The delete flow makes no call that is forbidden to it. *)
Lemma main_delete_calls_only (int : string -> res Z) (w : World)
    (cfg : Config) (n : nat) (p : ApiCall -> bool) :
  (forall c, flag_of_call c = None \/ flag_of_call c = Some (Some "delete") ->
             p c = false) ->
  filter p (api_calls (trace (main int w cfg false true false n))) = [].
Proof.
  intros Hp. rewrite main_delete_trace. cbv zeta.
  rewrite api_calls_app, filter_app, get_cluster_status_api_calls.
  cbn [filter]. rewrite Hp by (cbn; auto). cbn [app].
  destruct (observed w (DWH_CLUSTER_IDENTIFIER cfg) n) as [s | e];
    [| reflexivity].
  destruct (String.eqb s "available"); [| reflexivity].
  rewrite api_calls_app, filter_app, delete_redshift_cluster_api_calls.
  rewrite (poll_loop_api_calls w "unknown" _ p) by (apply Hp; cbn; auto).
  cbn [filter]. rewrite Hp by (cbn; auto). reflexivity.
Qed.

Lemma command_conflict_trace (int : string -> res Z) (w : World)
    (page : string) (cfg : Config) (opts : list string) (a b : string)
    (n : nat) :
  ~ In "help" opts ->
  In a flags -> In b flags -> a <> b -> In a opts -> In b opts ->
  trace (command int w page cfg opts n) = [].
Proof.
  intros Hhelp Ha Hb Hab Hao Hbo.
  destruct (command_conflict int w page cfg opts a b n Hhelp Ha Hb Hab Hao
              Hbo) as [msg ->].
  reflexivity.
Qed.

Lemma not_in_filtered (p : ApiCall -> bool) (t : list Event) (c : ApiCall) :
  filter p (api_calls t) = [] -> In (ECall c) t -> p c = false.
Proof.
  intros Hf Hin. destruct (p c) eqn:Hc; [| reflexivity].
  assert (H : In c (filter p (api_calls t))).
  { apply filter_In. split; [apply ECall_in_api_calls; exact Hin | exact Hc]. }
  rewrite Hf in H. destruct H.
Qed.

Lemma command_calls_allowed (int : string -> res Z) (w : World)
    (page : string) (cfg : Config) (opts : list string) (n : nat)
    (c : ApiCall) :
  In (ECall c) (trace (command int w page cfg opts n)) ->
  call_allowed opts c = true.
Proof.
  intros Hin.
  destruct (mem "help" opts) eqn:Hh.
  { apply mem_In in Hh. rewrite (command_help int w page cfg opts n Hh) in Hin.
    destruct Hin as [Hin | []]. discriminate Hin. }
  assert (Hhelp : ~ In "help" opts)
    by (intros H; apply mem_In in H; congruence).
  destruct (mem "create" opts) eqn:Hc, (mem "delete" opts) eqn:Hd,
    (mem "status" opts) eqn:Hs;
    try (exfalso;
         first
           [ rewrite (command_conflict_trace int w page cfg opts "create"
                        "delete") in Hin;
             [ exact Hin | .. ];
             solve [ assumption | cbn; auto | discriminate
                   | apply mem_In; assumption ]
           | rewrite (command_conflict_trace int w page cfg opts "create"
                        "status") in Hin;
             [ exact Hin | .. ];
             solve [ assumption | cbn; auto | discriminate
                   | apply mem_In; assumption ]
           | rewrite (command_conflict_trace int w page cfg opts "delete"
                        "status") in Hin;
             [ exact Hin | .. ];
             solve [ assumption | cbn; auto | discriminate
                   | apply mem_In; assumption ] ]).
  all: assert (Hone : at_most_one_flag opts)
    by (intros a b Ha Hb Hao Hbo; apply mem_In in Hao, Hbo;
        unfold flags in Ha, Hb; cbn [In] in Ha, Hb;
        destruct Ha as [<- | [<- | [<- | []]]];
        destruct Hb as [<- | [<- | [<- | []]]];
        congruence).
  all: rewrite (command_without_conflict int w page cfg opts n Hhelp Hone),
    Hc, Hd, Hs in Hin.
  - apply negb_false_iff.
    apply (not_in_filtered (fun c => negb (call_allowed opts c)) _ c
             (main_create_calls_only int w cfg n
                (fun c => negb (call_allowed opts c)) ltac:(
                intros c' [H | H]; unfold call_allowed; rewrite H, ?Hc;
                reflexivity)) Hin).
  - apply negb_false_iff.
    apply (not_in_filtered (fun c => negb (call_allowed opts c)) _ c
             (main_delete_calls_only int w cfg n
                (fun c => negb (call_allowed opts c)) ltac:(
                intros c' [H | H]; unfold call_allowed; rewrite H, ?Hd;
                reflexivity)) Hin).
  - apply ECall_in_api_calls in Hin. rewrite main_status_api_calls in Hin.
    destruct Hin as [<- | []]. reflexivity.
  - rewrite main_no_flag in Hin. destruct Hin.
Qed.

(** X9. Whatever the command line, every API call the command makes is
    one its flags allow: [get_role], [create_role], [attach_role_policy]
    and [create_cluster] are made only when [--create] is given,
    [delete_cluster] only when [--delete] is given, and [delete_role] is
    never made, so that the command never removes the IAM role. *)
Theorem command_calls_follow_flags (int : string -> res Z) (w : World)
    (page : string) (cfg : Config) (opts : list string) (n : nat)
    (c : ApiCall) :
  In (ECall c) (trace (command int w page cfg opts n)) ->
  match c with
  | describe_clusters _ => True
  | get_role _ | create_role _ _ _ _ | attach_role_policy _ _
  | create_cluster _ => In "create" opts
  | delete_cluster _ _ => In "delete" opts
  | delete_role _ => False
  end.
Proof.
  intros Hin. apply command_calls_allowed in Hin.
  destruct c; unfold call_allowed in Hin; cbn in Hin;
    try (apply mem_In; exact Hin); try discriminate Hin; exact I.
Qed.

Lemma command_calls_follow_flags_witness :
  In "delete" ["delete"].
Proof.
  apply (command_calls_follow_flags Sample.int Sample.running
           "Usage: redshift_util.py [OPTIONS]" Sample.cfg
           ["delete"] 0 (delete_cluster "dwhCluster" true)).
  vm_compute. do 3 right. left. reflexivity.
Defined.

(** ** The help text of an option *)

Lemma occurs_in_earlier (needle s after : string) :
  occurs_in needle s -> occurs_in needle (s ++ after).
Proof.
  intros (b & a & ->). exists b, (a ++ after).
  rewrite !append_assoc. reflexivity.
Qed.

Lemma append_empty_r (s : string) : s ++ "" = s.
Proof.
  induction s as [| ch s IH]; cbn; [reflexivity | rewrite IH; reflexivity].
Qed.

Lemma join_occurs (sep m : string) (xs : list string) :
  In m xs -> occurs_in m (join sep xs).
Proof.
  induction xs as [| x xs IH]; intros Hin; [destruct Hin |].
  destruct xs as [| y xs].
  - destruct Hin as [-> | []]. exists EmptyString, EmptyString.
    cbn. rewrite append_empty_r. reflexivity.
  - cbn [join]. destruct Hin as [-> | Hin].
    + apply occurs_in_front.
    + apply occurs_in_later, occurs_in_later. exact (IH Hin).
Qed.

(** X10. An option built without excluded names keeps its help text as
    it is.  An option built with excluded names gets a help text that
    starts with the given one and goes on with a note in which every
    excluded name occurs; its set of excluded names holds each of them. *)
Theorem help_names_excluded_options (xs : list string)
    (help : option string) :
  init None help = ([], help) /\
  init (Some []) help = ([], help) /\
  forall m, In m xs ->
    exists excluded note,
      init (Some xs) help
      = (excluded,
         Some (match help with
               | Some h => h
               | None => EmptyString
               end ++ note)) /\
      In m excluded /\
      occurs_in m note.
Proof.
  split; [reflexivity |]. split; [reflexivity |].
  intros m Hm. unfold init, set_of.
  assert (Hset : In m (first_occurrences [] xs))
    by (apply first_occurrences_complete; [exact Hm | reflexivity]).
  destruct (first_occurrences [] xs) as [| x excluded] eqn:Hexcluded;
    [destruct Hset |].
  eexists. eexists. split; [reflexivity |]. split; [exact Hset |].
  apply occurs_in_later, occurs_in_later, occurs_in_earlier.
  apply join_occurs. exact Hset.
Qed.

(** ** How the flows end *)

Lemma create_cluster_phase_with_role_result (int : string -> res Z)
    (w : World) (cfg : Config) (role : Role) (n : nat) :
  let cid := DWH_CLUSTER_IDENTIFIER cfg in
  result (create_cluster_phase int w cfg (Some role) n) =
  match observed w cid n with
  | Ok status =>
      if String.eqb status "unknown"
      then res_map (fun _ => tt)
             (result (poll_loop w "available" cid 10 status (S n)))
      else Ok tt
  | Raise e => Raise e
  end.
Proof.
  cbv zeta. unfold create_cluster_phase.
  step get_cluster_status_run.
  destruct (observed w (DWH_CLUSTER_IDENTIFIER cfg) n) as [s | e];
    [| reflexivity].
  destruct (String.eqb s "unknown"); [| reflexivity].
  rewrite lift_bind. cbn [subscript_Arn]. rewrite bind_step.
  destruct (create_redshift_cluster_returns int w (Arn role)
              (DWH_CLUSTER_TYPE cfg) (DWH_NODE_TYPE cfg)
              (DWH_NUM_NODES cfg) (DWH_DB cfg)
              (DWH_CLUSTER_IDENTIFIER cfg) (DWH_DB_USER cfg)
              (DWH_DB_PASSWORD cfg) (S n)) as (r & Hr & Hn).
  destruct (create_redshift_cluster int w (Arn role)
              (DWH_CLUSTER_TYPE cfg) (DWH_NODE_TYPE cfg)
              (DWH_NUM_NODES cfg) (DWH_DB cfg)
              (DWH_CLUSTER_IDENTIFIER cfg) (DWH_DB_USER cfg)
              (DWH_DB_PASSWORD cfg) (S n)) as [[rc nc] tc].
  unfold result, calls_after in Hr, Hn. cbn [fst snd] in Hr, Hn. subst.
  step sleep_run. rewrite bind_discard. finish_run. reflexivity.
Qed.

(** The outcome of the create flow. *)
Lemma main_create_result (int : string -> res Z) (w : World) (cfg : Config)
    (n : nat) :
  let nm := DWH_IAM_ROLE_NAME cfg in
  let cid := DWH_CLUSTER_IDENTIFIER cfg in
  result (main int w cfg true false false n) =
  match observed w cid n with
  | Ok status =>
      if String.eqb status "unknown"
      then
        match role_obtained w nm n with
        | Some _ =>
            res_map (fun _ => tt)
              (result (poll_loop w "available" cid 10 status (S n)))
        | None =>
            Raise (Exn TypeError "'NoneType' object is not subscriptable")
        end
      else Ok tt
  | Raise e => Raise e
  end.
Proof.
  cbv zeta. rewrite main_create_only. unfold role_obtained.
  rewrite bind_step, get_iam_role_run.
  destruct (get_role_resp w) as [r | e]; cbv iota; cbn [py_not].
  - rewrite ret_bind. unfold with_prefix at 1. unfold result at 1.
    cbn [fst]. unfold result at 2. cbn [fst].
    fold (result (create_cluster_phase int w cfg (Some (get_Role r)) n)).
    rewrite create_cluster_phase_with_role_result. reflexivity.
  - rewrite bind_step, create_iam_role_run. cbv zeta.
    destruct (create_role_resp w) as [r | e'];
      [destruct (attach_role_policy_resp w) as [a | e'] |]; cbv iota.
    + unfold with_prefix, result at 1 2. cbn [fst].
      fold (result (create_cluster_phase int w cfg
                      (Some (create_Role r)) n)).
      rewrite create_cluster_phase_with_role_result. cbv zeta.
      unfold result at 2 3. cbn [fst]. reflexivity.
    + rewrite create_cluster_phase_without_role. cbv zeta.
      unfold with_prefix, result. cbn [fst].
      destruct (observed w (DWH_CLUSTER_IDENTIFIER cfg) n) as [s | e0];
        [destruct (String.eqb s "unknown") |]; reflexivity.
    + rewrite create_cluster_phase_without_role. cbv zeta.
      unfold with_prefix, result. cbn [fst].
      destruct (observed w (DWH_CLUSTER_IDENTIFIER cfg) n) as [s | e0];
        [destruct (String.eqb s "unknown") |]; reflexivity.
Qed.

Lemma poll_loop_returns (w : World) (target cid status0 : string)
    (i n0 : nat) :
  (forall k, k < i -> exists s, observed w cid (n0 + k) = Ok s) ->
  exists s, result (poll_loop w target cid i status0 n0) = Ok s.
Proof.
  intros Hscript.
  destruct (poll_loop_run w target cid i status0 n0 Hscript)
    as (k & s & t & Hrun & _).
  exists s. rewrite Hrun. reflexivity.
Qed.

(** X11. When the status the create flow observes is not ['unknown'],
    the flow ends normally right after that one describe-status call:
    its events are those of the role lookup, of the role creation when
    the lookup gave [None], and of the status check; it neither calls
    [create_cluster] nor sleeps nor polls. *)
Theorem create_flow_leaves_existing_cluster (int : string -> res Z)
    (w : World) (cfg : Config) (n : nat) (s : string) :
  observed w (DWH_CLUSTER_IDENTIFIER cfg) n = Ok s ->
  s <> "unknown" ->
  main int w cfg true false false n =
  (Ok tt, S n,
   (trace (get_iam_role w (DWH_IAM_ROLE_NAME cfg) n)
    ++ match get_role_resp w with
       | Ok _ => []
       | Raise _ => trace (create_iam_role w (DWH_IAM_ROLE_NAME cfg) n)
       end
    ++ trace (get_cluster_status w (DWH_CLUSTER_IDENTIFIER cfg) n))%list).
Proof.
  intros Hs Hne. apply String.eqb_neq in Hne.
  pose proof (main_create_result int w cfg n) as Hres.
  pose proof (main_create_calls_after int w cfg n) as Hcalls.
  pose proof (main_create_trace int w cfg n) as Htrace.
  cbv zeta in Hres, Hcalls, Htrace.
  rewrite Hs, Hne in Hres, Hcalls, Htrace.
  destruct (main int w cfg true false false n) as [[r n'] t].
  unfold result, calls_after, trace in Hres, Hcalls, Htrace.
  cbn [fst snd] in Hres, Hcalls, Htrace.
  assert (Hn' : n' = S n)
    by (destruct (role_obtained w (DWH_IAM_ROLE_NAME cfg) n); exact Hcalls).
  assert (Ht : t =
    (trace (get_iam_role w (DWH_IAM_ROLE_NAME cfg) n)
     ++ match get_role_resp w with
        | Ok _ => []
        | Raise _ => trace (create_iam_role w (DWH_IAM_ROLE_NAME cfg) n)
        end
     ++ trace (get_cluster_status w (DWH_CLUSTER_IDENTIFIER cfg) n))%list).
  { rewrite Htrace.
    destruct (role_obtained w (DWH_IAM_ROLE_NAME cfg) n);
      rewrite app_nil_r; reflexivity. }
  rewrite Hres, Hn', <- Ht. reflexivity.
Qed.

Lemma create_flow_leaves_existing_cluster_witness :
  main Sample.int Sample.running Sample.cfg true false false 0 =
  (Ok tt, 1,
   [EPrint "Get the IAM Role: dwhRole"; ECall (get_role "dwhRole");
    EPrint "Get Redshift cluster status: dwhCluster";
    ECall (describe_clusters "dwhCluster")]).
Proof.
  apply (create_flow_leaves_existing_cluster Sample.int Sample.running
           Sample.cfg 0 "available").
  - reflexivity.
  - discriminate.
Defined.

(** X12. When the observed status is ['unknown'], a role is at hand and
    the ten polls that follow all give a status, the create flow ends
    normally, whether or not the [create_cluster] call succeeded and
    whether or not the cluster ever became ['available']: a refused
    creation and a timeout both end like a success. *)
Theorem create_flow_ends_normally_when_polls_answer
    (int : string -> res Z) (w : World) (cfg : Config) (n : nat)
    (role : Role) :
  observed w (DWH_CLUSTER_IDENTIFIER cfg) n = Ok "unknown" ->
  role_obtained w (DWH_IAM_ROLE_NAME cfg) n = Some role ->
  (forall k, k < 10 ->
     exists s, observed w (DWH_CLUSTER_IDENTIFIER cfg) (S n + k) = Ok s) ->
  result (main int w cfg true false false n) = Ok tt.
Proof.
  intros Hs Hrole Hscript.
  rewrite main_create_result. cbv zeta. rewrite Hs, Hrole.
  cbn [String.eqb Ascii.eqb Bool.eqb].
  destruct (poll_loop_returns w "available" (DWH_CLUSTER_IDENTIFIER cfg)
              "unknown" 10 (S n) Hscript) as [s' Hs'].
  rewrite Hs'. reflexivity.
Qed.

Lemma create_flow_ends_normally_when_polls_answer_witness :
  result (main Sample.int SampleRefused.refused Sample.cfg
            true false false 0) = Ok tt.
Proof.
  apply (create_flow_ends_normally_when_polls_answer Sample.int
           SampleRefused.refused Sample.cfg 0 Sample.role).
  - reflexivity.
  - reflexivity.
  - intros k Hk. exists "unknown". reflexivity.
Defined.

(** X13. When the status the delete flow observes is not ['available']
    (a cluster that is missing reads ['unknown']), the flow ends normally
    after that one describe-status call and does nothing else. *)
Theorem delete_flow_leaves_unavailable_cluster (int : string -> res Z)
    (w : World) (cfg : Config) (n : nat) (s : string) :
  observed w (DWH_CLUSTER_IDENTIFIER cfg) n = Ok s ->
  s <> "available" ->
  main int w cfg false true false n =
  (Ok tt, S n,
   [EPrint (status_banner (DWH_CLUSTER_IDENTIFIER cfg));
    ECall (describe_clusters (DWH_CLUSTER_IDENTIFIER cfg))]).
Proof.
  intros Hs Hne. apply String.eqb_neq in Hne.
  rewrite main_delete_only.
  step get_cluster_status_run. rewrite Hs, Hne. reflexivity.
Qed.

Lemma delete_flow_leaves_unavailable_cluster_witness :
  main Sample.int Sample.fresh Sample.cfg false true false 0 =
  (Ok tt, 1,
   [EPrint (status_banner "dwhCluster");
    ECall (describe_clusters "dwhCluster")]).
Proof.
  apply (delete_flow_leaves_unavailable_cluster Sample.int Sample.fresh
           Sample.cfg 0 "unknown").
  - reflexivity.
  - discriminate.
Defined.

(** * The polling loops of the two flows *)

Lemma main_delete_result (int : string -> res Z) (w : World) (cfg : Config)
    (n : nat) :
  let cid := DWH_CLUSTER_IDENTIFIER cfg in
  result (main int w cfg false true false n) =
  match observed w cid n with
  | Ok status =>
      if String.eqb status "available"
      then res_map (fun _ => tt)
             (result (poll_loop w "unknown" cid 10 status (S n)))
      else Ok tt
  | Raise e => Raise e
  end.
Proof.
  cbv zeta. rewrite main_delete_only.
  step get_cluster_status_run.
  destruct (observed w (DWH_CLUSTER_IDENTIFIER cfg) n) as [s | e];
    [| reflexivity].
  destruct (String.eqb s "available"); [| reflexivity].
  step delete_redshift_cluster_run. rewrite bind_discard.
  finish_run. reflexivity.
Qed.

(** Before its polling loop the create flow has made one describe-status
    call, the status check. *)
Lemma create_flow_describes_once_before_polling (int : string -> res Z)
    (w : World) (cfg : Config) (role : Role) (n : nat) :
  describe_calls
    (trace (get_iam_role w (DWH_IAM_ROLE_NAME cfg) n)
     ++ match get_role_resp w with
        | Ok _ => []
        | Raise _ => trace (create_iam_role w (DWH_IAM_ROLE_NAME cfg) n)
        end
     ++ trace (get_cluster_status w (DWH_CLUSTER_IDENTIFIER cfg) n)
     ++ trace (create_redshift_cluster int w (Arn role)
                 (DWH_CLUSTER_TYPE cfg) (DWH_NODE_TYPE cfg)
                 (DWH_NUM_NODES cfg) (DWH_DB cfg)
                 (DWH_CLUSTER_IDENTIFIER cfg) (DWH_DB_USER cfg)
                 (DWH_DB_PASSWORD cfg) (S n))
     ++ [ESleep 10])%list = 1.
Proof.
  rewrite !describe_calls_app.
  destruct (helpers_do_not_describe int w (DWH_IAM_ROLE_NAME cfg) ""
              "" "" "" "" (DWH_CLUSTER_IDENTIFIER cfg) "" "" n)
    as (-> & Hcreate & -> & _).
  destruct (helpers_do_not_describe int w "" (Arn role)
              (DWH_CLUSTER_TYPE cfg) (DWH_NODE_TYPE cfg)
              (DWH_NUM_NODES cfg) (DWH_DB cfg)
              (DWH_CLUSTER_IDENTIFIER cfg) (DWH_DB_USER cfg)
              (DWH_DB_PASSWORD cfg) (S n)) as (_ & _ & _ & -> & _).
  assert (Hrole :
    describe_calls
      match get_role_resp w with
      | Ok _ => []
      | Raise _ => trace (create_iam_role w (DWH_IAM_ROLE_NAME cfg) n)
      end = 0)
    by (destruct (get_role_resp w); [reflexivity | exact Hcreate]).
  rewrite Hrole. reflexivity.
Qed.

(** C1. Over any scripted sequence of statuses for the ten polls, each
    flow that reaches its polling loop (the create flow on the status
    ['unknown'] with a role at hand, waiting for ['available']; the
    delete flow on the status ['available'], waiting for ['unknown'])
    ends normally, also when the budget is used up, after the status
    check and [k <= 10] describe-status calls inside the loop: [k] is the
    position of the first poll that gave the target status if one of the
    ten did, and exactly 10 otherwise. *)
Theorem flows_poll_until_target_or_budget (int : string -> res Z)
    (w : World) (cfg : Config) (n : nat) :
  let cid := DWH_CLUSTER_IDENTIFIER cfg in
  let create_run := main int w cfg true false false n in
  let delete_run := main int w cfg false true false n in
  (forall k, k < 10 -> exists s, observed w cid (S n + k) = Ok s) ->
  (observed w cid n = Ok "unknown" ->
   role_obtained w (DWH_IAM_ROLE_NAME cfg) n <> None ->
   exists k,
     result create_run = Ok tt /\
     calls_after create_run = S n + k /\
     describe_calls (trace create_run) = S k /\
     k <= 10 /\
     (forall j, j < 10 ->
        observed w cid (S n + j) = Ok "available" ->
        (forall j', j' < j -> observed w cid (S n + j') <> Ok "available") ->
        k = S j) /\
     ((forall j, j < 10 -> observed w cid (S n + j) <> Ok "available") ->
      k = 10)) /\
  (observed w cid n = Ok "available" ->
   exists k,
     result delete_run = Ok tt /\
     calls_after delete_run = S n + k /\
     describe_calls (trace delete_run) = S k /\
     k <= 10 /\
     (forall j, j < 10 ->
        observed w cid (S n + j) = Ok "unknown" ->
        (forall j', j' < j -> observed w cid (S n + j') <> Ok "unknown") ->
        k = S j) /\
     ((forall j, j < 10 -> observed w cid (S n + j) <> Ok "unknown") ->
      k = 10)).
Proof.
  cbv zeta. intros Hscript. split.
  - intros Hstatus Hrole.
    destruct (role_obtained w (DWH_IAM_ROLE_NAME cfg) n) as [role |] eqn:Hr;
      [clear Hrole | contradiction].
    destruct (poll_loop_stops_at_target_or_budget w "available"
                (DWH_CLUSTER_IDENTIFIER cfg) "unknown" (S n) Hscript)
      as (k & s & t & Hrun & Hcalls & Hle & Hfirst & Hnone).
    exists k.
    rewrite main_create_result, main_create_calls_after, main_create_trace.
    cbv zeta. rewrite Hstatus, Hr. cbn [String.eqb Ascii.eqb Bool.eqb].
    rewrite Hrun. unfold result, calls_after, trace. cbn [fst snd res_map].
    split; [reflexivity |]. split; [reflexivity |]. split.
    + rewrite !app_assoc, describe_calls_app, <- !app_assoc, Hcalls.
      pose proof (create_flow_describes_once_before_polling int w cfg role n)
        as Hbefore.
      unfold trace in Hbefore. rewrite Hbefore. reflexivity.
    + split; [exact Hle |]. split; [exact Hfirst | exact Hnone].
  - intros Hstatus.
    destruct (poll_loop_stops_at_target_or_budget w "unknown"
                (DWH_CLUSTER_IDENTIFIER cfg) "available" (S n) Hscript)
      as (k & s & t & Hrun & Hcalls & Hle & Hfirst & Hnone).
    exists k.
    rewrite main_delete_result, main_delete_calls_after, main_delete_trace.
    cbv zeta. rewrite Hstatus. cbn [String.eqb Ascii.eqb Bool.eqb].
    rewrite Hrun. unfold result, calls_after, trace. cbn [fst snd res_map].
    split; [reflexivity |]. split; [reflexivity |]. split.
    + rewrite !describe_calls_app, Hcalls.
      destruct (helpers_do_not_describe int w "" "" "" "" "" ""
                  (DWH_CLUSTER_IDENTIFIER cfg) "" "" n)
        as (_ & _ & Hcheck & _).
      destruct (helpers_do_not_describe int w "" "" "" "" "" ""
                  (DWH_CLUSTER_IDENTIFIER cfg) "" "" (S n))
        as (_ & _ & _ & _ & Hdelete).
      unfold trace in Hcheck, Hdelete. rewrite Hcheck, Hdelete. reflexivity.
    + split; [exact Hle |]. split; [exact Hfirst | exact Hnone].
Qed.

Lemma flows_poll_until_target_or_budget_witness :
  result (main Sample.int Sample.fresh Sample.cfg true false false 0)
  = Ok tt /\
  calls_after (main Sample.int Sample.fresh Sample.cfg true false false 0)
  = 1 + 4.
Proof.
  destruct (flows_poll_until_target_or_budget Sample.int Sample.fresh
              Sample.cfg 0) as [Hcreate _].
  - intros k Hk.
    do 10 (destruct k as [| k]; [eexists; reflexivity |]). lia.
  - destruct Hcreate as (k & Hres & Hcalls & _ & _ & Hfirst & _).
    + reflexivity.
    + discriminate.
    + split; [exact Hres |]. rewrite Hcalls. f_equal.
      apply (Hfirst 3); [lia | reflexivity |].
      intros j' Hj'.
      do 3 (destruct j' as [| j']; [vm_compute; discriminate |]). lia.
Defined.

(** ** What the polling loop prints *)





